(** * MockDeviceInstance: the reference double of the IDeviceInstance contract

    A shallow embedding of [test/MockDeviceInstance.h] together with the
    declarations of [src/IDeviceInstance.h] it uses.  Every method of the
    class is a computation in a small state monad over the object's fields;
    the FreeRTOS primitives the methods call (mutexes, the event group,
    task creation and delays) are modelled next to them, on the same state,
    by a discrete tick-driven scheduler.

    Modelling choices:
    - a method body runs without interleaving; other activity happens
      between calls, as clock ticks and as runs of the waiting tasks;
    - a mutex held when a method asks for it with [portMAX_DELAY] is never
      released (nobody in the model holds one across calls), so the call
      does not return;
    - [xTaskCreate] succeeds; a ["MockNotify"] task runs when the scheduler
      dispatches it, and the observers it calls only record the call;
    - delays are counted in ticks ([pdMS_TO_TICKS] is applied by the caller
      of the constructor);
    - samples are IEEE-754 values, which the mock stores and copies and
      never computes with (every [float] of the source is exactly a
      binary64 value);
    - enumerations are scoped enumerations over [int]: [ErrorCode] is only
      stored and compared, and is an inductive type; [EventType] and
      [DeviceDataType] are converted to [int] or used as keys, and are the
      integer they carry. *)

From Stdlib Require Import ZArith NArith List Bool Lia PrimFloat.
From stdpp Require Import base gmap list.
From Stdlib Require String.
Import ListNotations.
Import String.StringSyntax.
Delimit Scope string_scope with string.

Local Open Scope Z_scope.

(** ** Declarations of IDeviceInstance.h *)

(** [enum class DeviceError] (named [ErrorCode] by the mock). *)
Inductive ErrorCode : Type :=
  | SUCCESS
  | NOT_INITIALIZED
  | TIMEOUT
  | MUTEX_ERROR
  | COMMUNICATION_ERROR
  | INVALID_PARAMETER
  | DATA_NOT_READY
  | MEMORY_ERROR
  | DEVICE_BUSY
  | NOT_SUPPORTED
  | UNKNOWN_ERROR.

(** [enum class DeviceDataType]: a scoped enumeration over [int]; the
    mock only uses it as a key of [std::map], so it is kept as the
    underlying integer. *)
Definition DeviceDataType := Z.
Definition TEMPERATURE : DeviceDataType := 0.
Definition HUMIDITY : DeviceDataType := 1.
Definition PRESSURE : DeviceDataType := 2.
Definition RELAY_STATE : DeviceDataType := 3.
Definition NUM_TYPES : DeviceDataType := 4.

Definition isValidDataType (dataType : Z) : bool :=
  (0 <=? dataType) && (dataType <? NUM_TYPES).

(** [enum class EventType]: a scoped enumeration whose underlying type is
    [int].  The mock converts it with [static_cast<int>] and indexes an
    array with the result, so a value is the integer it carries; the five
    enumerators are the constants below. *)
Definition EventType := Z.
Definition INITIALIZED : EventType := 0.
Definition DATA_READY : EventType := 1.
Definition ERROR_OCCURRED : EventType := 2.
Definition STATE_CHANGED : EventType := 3.
Definition CUSTOM_EVENT : EventType := 4.

Definition INT_MIN : Z := - 2 ^ 31.
Definition INT_MAX : Z := 2 ^ 31 - 1.
Definition is_int (z : Z) : Prop := INT_MIN <= z <= INT_MAX.

(** [struct EventNotification]. *)
Record EventNotification : Type := mkEventNotification {
  type : EventType;
  error : ErrorCode;
  customData : Z
}.

(** [struct DataResult] as the mock builds it: [{success, values}]. *)
Record DataResult : Type := mkDataResult {
  success : bool;
  values : list float
}.

(** An [EventCallback] is an opaque [std::function]; an observer is
    identified by a number and calling it is recorded in a trace. *)
Definition EventCallback := nat.

(** ** FreeRTOS vocabulary *)

Definition TickType_t := N.
Definition portMAX_DELAY : TickType_t := 4294967295%N.

Definition EventBits_t := Z.
Definition BIT0 : EventBits_t := 1.
Definition BIT1 : EventBits_t := 2.
Definition BIT2 : EventBits_t := 4.

Definition INIT_COMPLETE_BIT : EventBits_t := BIT0.
Definition DATA_READY_BIT : EventBits_t := BIT1.
Definition ERROR_BIT : EventBits_t := BIT2.

(** The two tasks the mock creates with [xTaskCreate]:
    ["MockDataAcq"], which sleeps for the data delay (the ticks still to
    sleep are kept with the task) and then signals, and ["MockNotify"],
    which calls the observers with one notification. *)
Inductive task : Type :=
  | MockDataAcq (remaining : TickType_t)
  | MockNotify (notification : EventNotification).

(** ** [bool eventsEnabled[5]] *)

Definition flags5 : Type := (bool * bool * bool * bool * bool)%type.

Definition in_bounds (i : Z) : bool := (0 <=? i) && (i <? 5).

(** [a[i]] as an rvalue: defined only inside the array. *)
Definition array_get (a : flags5) (i : Z) : option bool :=
  let '(e0, e1, e2, e3, e4) := a in
  match i with
  | 0 => Some e0
  | 1 => Some e1
  | 2 => Some e2
  | 3 => Some e3
  | 4 => Some e4
  | _ => None
  end.

(** [a[i] = b]: defined only inside the array. *)
Definition array_set (a : flags5) (i : Z) (b : bool) : option flags5 :=
  let '(e0, e1, e2, e3, e4) := a in
  match i with
  | 0 => Some (b, e1, e2, e3, e4)
  | 1 => Some (e0, b, e2, e3, e4)
  | 2 => Some (e0, e1, b, e3, e4)
  | 3 => Some (e0, e1, e2, b, e4)
  | 4 => Some (e0, e1, e2, e3, b)
  | _ => None
  end.

(** ** The object *)

(** The private members of [MockDeviceInstance], followed by the part of
    the scheduler the object's behaviour depends on: the tasks it has
    created that have not finished, and the trace of observer calls.
    A mutex is [true] while it is held. *)
Record MockDeviceInstance : Type := mkMock {
  initialized : bool;
  dataRequested : bool;
  dataProcessed : bool;
  mutexInstance : bool;
  mutexInterface : bool;
  eventGroup : EventBits_t;
  testData : gmap Z (list float);
  nextError : ErrorCode;
  shouldFailNext : bool;
  callbacks : list EventCallback;
  eventsEnabled : flags5;
  performedActions : list (Z * Z);
  initDelay : TickType_t;
  dataDelay : TickType_t;
  tasks : list task;
  delivered : list (EventCallback * EventNotification)
}.

(** Field updates ([s.f = v]). *)
Definition set_initialized (v : bool) (s : MockDeviceInstance) : MockDeviceInstance :=
  let 'mkMock _ f2 f3 f4 f5 f6 f7 f8 f9 f10 f11 f12 f13 f14 f15 f16 := s in
  mkMock v f2 f3 f4 f5 f6 f7 f8 f9 f10 f11 f12 f13 f14 f15 f16.
Definition set_dataRequested (v : bool) (s : MockDeviceInstance) : MockDeviceInstance :=
  let 'mkMock f1 _ f3 f4 f5 f6 f7 f8 f9 f10 f11 f12 f13 f14 f15 f16 := s in
  mkMock f1 v f3 f4 f5 f6 f7 f8 f9 f10 f11 f12 f13 f14 f15 f16.
Definition set_dataProcessed (v : bool) (s : MockDeviceInstance) : MockDeviceInstance :=
  let 'mkMock f1 f2 _ f4 f5 f6 f7 f8 f9 f10 f11 f12 f13 f14 f15 f16 := s in
  mkMock f1 f2 v f4 f5 f6 f7 f8 f9 f10 f11 f12 f13 f14 f15 f16.
Definition set_mutexInstance (v : bool) (s : MockDeviceInstance) : MockDeviceInstance :=
  let 'mkMock f1 f2 f3 _ f5 f6 f7 f8 f9 f10 f11 f12 f13 f14 f15 f16 := s in
  mkMock f1 f2 f3 v f5 f6 f7 f8 f9 f10 f11 f12 f13 f14 f15 f16.
Definition set_mutexInterface (v : bool) (s : MockDeviceInstance) : MockDeviceInstance :=
  let 'mkMock f1 f2 f3 f4 _ f6 f7 f8 f9 f10 f11 f12 f13 f14 f15 f16 := s in
  mkMock f1 f2 f3 f4 v f6 f7 f8 f9 f10 f11 f12 f13 f14 f15 f16.
Definition set_eventGroup (v : EventBits_t) (s : MockDeviceInstance) : MockDeviceInstance :=
  let 'mkMock f1 f2 f3 f4 f5 _ f7 f8 f9 f10 f11 f12 f13 f14 f15 f16 := s in
  mkMock f1 f2 f3 f4 f5 v f7 f8 f9 f10 f11 f12 f13 f14 f15 f16.
Definition set_testData (v : gmap Z (list float)) (s : MockDeviceInstance) : MockDeviceInstance :=
  let 'mkMock f1 f2 f3 f4 f5 f6 _ f8 f9 f10 f11 f12 f13 f14 f15 f16 := s in
  mkMock f1 f2 f3 f4 f5 f6 v f8 f9 f10 f11 f12 f13 f14 f15 f16.
Definition set_nextError (v : ErrorCode) (s : MockDeviceInstance) : MockDeviceInstance :=
  let 'mkMock f1 f2 f3 f4 f5 f6 f7 _ f9 f10 f11 f12 f13 f14 f15 f16 := s in
  mkMock f1 f2 f3 f4 f5 f6 f7 v f9 f10 f11 f12 f13 f14 f15 f16.
Definition set_shouldFailNext (v : bool) (s : MockDeviceInstance) : MockDeviceInstance :=
  let 'mkMock f1 f2 f3 f4 f5 f6 f7 f8 _ f10 f11 f12 f13 f14 f15 f16 := s in
  mkMock f1 f2 f3 f4 f5 f6 f7 f8 v f10 f11 f12 f13 f14 f15 f16.
Definition set_callbacks (v : list EventCallback) (s : MockDeviceInstance) : MockDeviceInstance :=
  let 'mkMock f1 f2 f3 f4 f5 f6 f7 f8 f9 _ f11 f12 f13 f14 f15 f16 := s in
  mkMock f1 f2 f3 f4 f5 f6 f7 f8 f9 v f11 f12 f13 f14 f15 f16.
Definition set_eventsEnabled (v : flags5) (s : MockDeviceInstance) : MockDeviceInstance :=
  let 'mkMock f1 f2 f3 f4 f5 f6 f7 f8 f9 f10 _ f12 f13 f14 f15 f16 := s in
  mkMock f1 f2 f3 f4 f5 f6 f7 f8 f9 f10 v f12 f13 f14 f15 f16.
Definition set_performedActions (v : list (Z * Z)) (s : MockDeviceInstance) : MockDeviceInstance :=
  let 'mkMock f1 f2 f3 f4 f5 f6 f7 f8 f9 f10 f11 _ f13 f14 f15 f16 := s in
  mkMock f1 f2 f3 f4 f5 f6 f7 f8 f9 f10 f11 v f13 f14 f15 f16.
Definition set_tasks (v : list task) (s : MockDeviceInstance) : MockDeviceInstance :=
  let 'mkMock f1 f2 f3 f4 f5 f6 f7 f8 f9 f10 f11 f12 f13 f14 _ f16 := s in
  mkMock f1 f2 f3 f4 f5 f6 f7 f8 f9 f10 f11 f12 f13 f14 v f16.
Definition set_delivered (v : list (EventCallback * EventNotification))
    (s : MockDeviceInstance) : MockDeviceInstance :=
  let 'mkMock f1 f2 f3 f4 f5 f6 f7 f8 f9 f10 f11 f12 f13 f14 f15 _ := s in
  mkMock f1 f2 f3 f4 f5 f6 f7 f8 f9 f10 f11 f12 f13 f14 f15 v.

(** ** The monad of method bodies

    A call either returns a value and the new object, never returns
    because it waits on something that does not come ([Blocks]), or has
    no defined behaviour ([Undefined]: an array access outside
    [eventsEnabled]). *)
Inductive outcome (A : Type) : Type :=
  | Ret (a : A) (s : MockDeviceInstance)
  | Blocks
  | Undefined.
Arguments Ret {A} a s.
Arguments Blocks {A}.
Arguments Undefined {A}.

Definition M (A : Type) : Type := MockDeviceInstance -> outcome A.

#[global] Instance M_ret : MRet M := fun A a s => Ret a s.
#[global] Instance M_bind : MBind M := fun A B k m s =>
  match m s with
  | Ret a s' => k a s'
  | Blocks => Blocks
  | Undefined => Undefined
  end.

Definition gets {A : Type} (f : MockDeviceInstance -> A) : M A :=
  fun s => Ret (f s) s.
Definition modify (f : MockDeviceInstance -> MockDeviceInstance) : M unit :=
  fun s => Ret tt (f s).
Definition undefined_behaviour {A : Type} : M A := fun _ => Undefined.
Definition block_forever {A : Type} : M A := fun _ => Blocks.

(** [for (x : l) body(x);] *)
Fixpoint for_each {A : Type} (body : A -> M unit) (l : list A) : M unit :=
  match l with
  | [] => mret tt
  | x :: l' => body x ;; for_each body l'
  end.

(** ** FreeRTOS primitives, as the mock uses them *)

(** The two semaphore handles the object owns. *)
Inductive SemaphoreHandle_t : Type := MutexInstance | MutexInterface.

Definition held (m : SemaphoreHandle_t) (s : MockDeviceInstance) : bool :=
  match m with
  | MutexInstance => mutexInstance s
  | MutexInterface => mutexInterface s
  end.

Definition set_held (m : SemaphoreHandle_t) (v : bool) : MockDeviceInstance -> MockDeviceInstance :=
  match m with
  | MutexInstance => set_mutexInstance v
  | MutexInterface => set_mutexInterface v
  end.

(** [xTaskCreate]: the new task joins the tasks that are waiting to run. *)
Definition xTaskCreate (t : task) : M unit :=
  modify (fun s => set_tasks (tasks s ++ [t]) s).

Definition xEventGroupSetBits (bits : EventBits_t) : M unit :=
  modify (fun s => set_eventGroup (Z.lor (eventGroup s) bits) s).

Definition xEventGroupClearBits (bits : EventBits_t) : M unit :=
  modify (fun s => set_eventGroup (Z.ldiff (eventGroup s) bits) s).

(** [MockDeviceInstance::notifyEvent] (private): reads the enable flag of
    the event type, and when it is set creates the ["MockNotify"] task
    that will call the observers. *)
Definition notifyEvent (type : EventType) (error : ErrorCode) (customData : Z) : M unit :=
  flags ← gets eventsEnabled;
  match array_get flags type with
  | None => undefined_behaviour
  | Some false => mret tt
  | Some true => xTaskCreate (MockNotify (mkEventNotification type error customData))
  end.

(** One tick of the clock for one task of the mock.  A ["MockDataAcq"]
    task whose delay ends sets the data-ready bit and notifies, as its
    lambda does after [vTaskDelay]; a ["MockNotify"] task is not delayed
    and stays as it is until it is dispatched. *)
Definition tick_task (t : task) : M unit :=
  match t with
  | MockDataAcq remaining =>
      if (remaining <=? 1)%N then
        xEventGroupSetBits DATA_READY_BIT;;
        notifyEvent DATA_READY SUCCESS 0
      else xTaskCreate (MockDataAcq (N.pred remaining))
  | MockNotify n => xTaskCreate (MockNotify n)
  end.

(** One tick of the clock: every task is advanced, in creation order. *)
Definition tick : M unit :=
  ts ← gets tasks;
  modify (set_tasks []);;
  for_each tick_task ts.

Fixpoint sleep (n : nat) : M unit :=
  match n with
  | O => mret tt
  | S n' => tick;; sleep n'
  end.

Definition vTaskDelay (xTicksToDelay : TickType_t) : M unit :=
  sleep (N.to_nat xTicksToDelay).

(** [xSemaphoreTake]: a free mutex is taken at once ([pdTRUE]); a held
    one makes the caller wait, for ever with [portMAX_DELAY]. *)
Definition xSemaphoreTake (m : SemaphoreHandle_t) (xTicksToWait : TickType_t) : M bool :=
  h ← gets (held m);
  if h : bool then
    if (xTicksToWait =? portMAX_DELAY)%N return M bool then block_forever
    else (vTaskDelay xTicksToWait;; mret false)
  else (modify (set_held m true);; mret true).

Definition xSemaphoreGive (m : SemaphoreHandle_t) : M unit :=
  modify (set_held m false).

(** The unblock condition of [xEventGroupWaitBits]. *)
Definition wait_satisfied (bits mask : EventBits_t) (xWaitForAllBits : bool) : bool :=
  if xWaitForAllBits then Z.land bits mask =? mask
  else negb (Z.land bits mask =? 0).

(** Waiting for at most [n] ticks: the bits are looked at first and after
    every tick; [expired] says what happens when the ticks run out. *)
Fixpoint wait_bits (n : nat) (mask : EventBits_t) (xWaitForAllBits : bool)
    (expired : EventBits_t -> M EventBits_t) : M EventBits_t :=
  bits ← gets eventGroup;
  if wait_satisfied bits mask xWaitForAllBits then mret bits
  else
    match n with
    | O => expired bits
    | S n' => tick;; wait_bits n' mask xWaitForAllBits expired
    end.

(** The number of ticks after which no ["MockDataAcq"] task is left
    (a task with no tick left to sleep ends at the next tick). *)
Fixpoint latest_wake (ts : list task) : TickType_t :=
  match ts with
  | [] => 0%N
  | MockDataAcq remaining :: ts' => N.max (N.max remaining 1) (latest_wake ts')
  | MockNotify _ :: ts' => latest_wake ts'
  end.

(** [xEventGroupWaitBits]: returns the bits seen when the wait ended,
    and clears the waited bits only when asked to.  With a timeout the
    call returns the bits of that moment; with [portMAX_DELAY] it waits
    as long as a task of the mock can still set a bit, and for ever
    after that. *)
Definition xEventGroupWaitBits (mask : EventBits_t) (xClearOnExit xWaitForAllBits : bool)
    (xTicksToWait : TickType_t) : M EventBits_t :=
  bits ← (if (xTicksToWait =? portMAX_DELAY)%N then
            ts ← gets tasks;
            wait_bits (N.to_nat (latest_wake ts)) mask xWaitForAllBits (fun _ => block_forever)
          else wait_bits (N.to_nat xTicksToWait) mask xWaitForAllBits mret);
  (if xClearOnExit && wait_satisfied bits mask xWaitForAllBits
   then xEventGroupClearBits mask else mret tt);;
  mret bits.

(** The body of the ["MockNotify"] task: every observer registered when
    the task runs is called with the notification. *)
Definition run_MockNotify (notif : EventNotification) : M unit :=
  cbs ← gets callbacks;
  for_each (fun callback => modify (fun s => set_delivered (delivered s ++ [(callback, notif)]) s)) cbs.

Definition is_MockDataAcq (t : task) : bool :=
  match t with MockDataAcq _ => true | MockNotify _ => false end.

Definition run_if_MockNotify (t : task) : M unit :=
  match t with
  | MockDataAcq _ => mret tt
  | MockNotify n => run_MockNotify n
  end.

(** The scheduler lets every waiting ["MockNotify"] task run to its end,
    oldest first. *)
Definition dispatch_all : M unit :=
  ts ← gets tasks;
  modify (set_tasks (filter is_MockDataAcq ts));;
  for_each run_if_MockNotify ts.

(** ** The methods of MockDeviceInstance *)

(** The constructor: flags cleared, no injected error, both delays as
    given (in ticks), mutexes and event group created, every event
    enabled. *)
Definition MockDeviceInstance_new (initDelayTicks dataDelayTicks : TickType_t) : MockDeviceInstance :=
  {| initialized := false; dataRequested := false; dataProcessed := false;
     mutexInstance := false; mutexInterface := false; eventGroup := 0;
     testData := ∅;
     nextError := SUCCESS; shouldFailNext := false;
     callbacks := []; eventsEnabled := (true, true, true, true, true);
     performedActions := [];
     initDelay := initDelayTicks; dataDelay := dataDelayTicks;
     tasks := []; delivered := [] |}.

Definition initialize : M unit :=
  taken ← xSemaphoreTake MutexInstance portMAX_DELAY;
  if taken : bool then
    delay ← gets initDelay;
    (if (0 <? delay)%N then
       xSemaphoreGive MutexInstance;;
       vTaskDelay delay;;
       xSemaphoreTake MutexInstance portMAX_DELAY;;
       mret tt
     else mret tt);;
    modify (set_initialized true);;
    xEventGroupSetBits INIT_COMPLETE_BIT;;
    notifyEvent INITIALIZED SUCCESS 0;;
    xSemaphoreGive MutexInstance
  else mret tt.

Definition isInitialized : M bool := gets initialized.

Definition waitForInitialization (xTicksToWait : TickType_t) : M ErrorCode :=
  bits ← xEventGroupWaitBits INIT_COMPLETE_BIT false true xTicksToWait;
  mret (if negb (Z.land bits INIT_COMPLETE_BIT =? 0) then SUCCESS else TIMEOUT).

Definition requestData : M bool :=
  init ← gets initialized;
  if negb init then mret false
  else
    fail ← gets shouldFailNext;
    if fail : bool then
      modify (set_shouldFailNext false);;
      err ← gets nextError;
      notifyEvent ERROR_OCCURRED err 0;;
      mret false
    else
      taken ← xSemaphoreTake MutexInterface portMAX_DELAY;
      if taken : bool then
        modify (set_dataRequested true);;
        modify (set_dataProcessed false);;
        xEventGroupClearBits DATA_READY_BIT;;
        delay ← gets dataDelay;
        (if (0 <? delay)%N then xTaskCreate (MockDataAcq delay)
         else (xEventGroupSetBits DATA_READY_BIT;;
               notifyEvent DATA_READY SUCCESS 0));;
        xSemaphoreGive MutexInterface;;
        mret true
      else mret false.

(** [bool waitForData()], the overload without a timeout. *)
Definition waitForData_forever : M bool :=
  bits ← xEventGroupWaitBits (Z.lor DATA_READY_BIT ERROR_BIT) false false portMAX_DELAY;
  mret (negb (Z.land bits DATA_READY_BIT =? 0)).

(** [ErrorCode waitForData(TickType_t)]. *)
Definition waitForData (xTicksToWait : TickType_t) : M ErrorCode :=
  bits ← xEventGroupWaitBits (Z.lor DATA_READY_BIT ERROR_BIT) false false xTicksToWait;
  if negb (Z.land bits DATA_READY_BIT =? 0) then mret SUCCESS
  else if negb (Z.land bits ERROR_BIT =? 0) then gets nextError
  else mret TIMEOUT.

Definition processData : M unit :=
  taken ← xSemaphoreTake MutexInstance portMAX_DELAY;
  if taken : bool then
    modify (set_dataProcessed true);;
    xSemaphoreGive MutexInstance
  else mret tt.

Definition getData (dataType : DeviceDataType) : M DataResult :=
  let result := mkDataResult false [] in
  taken ← xSemaphoreTake MutexInstance portMAX_DELAY;
  if taken : bool then
    result ← (init ← gets initialized;
              if negb init then mret result
              else
                processed ← gets dataProcessed;
                if negb processed then mret result
                else
                  data ← gets testData;
                  match data !! dataType with
                  | Some v => mret (mkDataResult true v)
                  | None => mret result
                  end);
    xSemaphoreGive MutexInstance;;
    mret result
  else mret result.

Definition performAction (actionId actionParam : Z) : M ErrorCode :=
  init ← gets initialized;
  if negb init then mret NOT_INITIALIZED
  else
    taken ← xSemaphoreTake MutexInstance portMAX_DELAY;
    if taken : bool then
      modify (fun s => set_performedActions (performedActions s ++ [(actionId, actionParam)]) s);;
      notifyEvent STATE_CHANGED SUCCESS actionId;;
      xSemaphoreGive MutexInstance;;
      mret SUCCESS
    else mret MUTEX_ERROR.

Definition registerCallback (callback : EventCallback) : M ErrorCode :=
  taken ← xSemaphoreTake MutexInstance portMAX_DELAY;
  if taken : bool then
    modify (fun s => set_callbacks (callbacks s ++ [callback]) s);;
    xSemaphoreGive MutexInstance;;
    mret SUCCESS
  else mret MUTEX_ERROR.

Definition unregisterCallbacks : M ErrorCode :=
  taken ← xSemaphoreTake MutexInstance portMAX_DELAY;
  if taken : bool then
    modify (set_callbacks []);;
    xSemaphoreGive MutexInstance;;
    mret SUCCESS
  else mret MUTEX_ERROR.

(** The only check is [static_cast<int>(eventType) >= 5]; the array is
    written at the index whenever that check does not hold. *)
Definition setEventNotification (eventType : EventType) (enable : bool) : M ErrorCode :=
  if 5 <=? eventType then mret INVALID_PARAMETER
  else
    flags ← gets eventsEnabled;
    match array_set flags eventType enable with
    | None => undefined_behaviour
    | Some flags' => modify (set_eventsEnabled flags');; mret SUCCESS
    end.

Definition setTestData (dataType : DeviceDataType) (vals : list float) : M unit :=
  taken ← xSemaphoreTake MutexInstance portMAX_DELAY;
  if taken : bool then
    modify (fun s => set_testData (<[dataType := vals]> (testData s)) s);;
    xSemaphoreGive MutexInstance
  else mret tt.

Definition injectError (error : ErrorCode) : M unit :=
  modify (set_nextError error);;
  modify (set_shouldFailNext true).

Definition getPerformedActions : M (list (Z * Z)) := gets performedActions.

Definition reset : M unit :=
  taken ← xSemaphoreTake MutexInstance portMAX_DELAY;
  if taken : bool then
    modify (set_initialized false);;
    modify (set_dataRequested false);;
    modify (set_dataProcessed false);;
    modify (set_testData ∅);;
    modify (set_performedActions []);;
    modify (set_nextError SUCCESS);;
    modify (set_shouldFailNext false);;
    xEventGroupClearBits (Z.lor INIT_COMPLETE_BIT (Z.lor DATA_READY_BIT ERROR_BIT));;
    xSemaphoreGive MutexInstance
  else mret tt.

Definition getCallbackCount : M nat := gets (fun s => length (callbacks s)).

Arguments MockDeviceInstance_new (initDelayTicks dataDelayTicks)%_N.
Arguments waitForData xTicksToWait%_N.
Arguments waitForInitialization xTicksToWait%_N.
Arguments vTaskDelay xTicksToDelay%_N.

(** ** Callers and the scheduler

    What can happen to the object between two points of a program: a
    call of a public method or test helper, a clock tick, or the
    scheduler running the waiting notification tasks. *)
Inductive call : Type :=
  | call_initialize
  | call_isInitialized
  | call_waitForInitialization (xTicksToWait : TickType_t)
  | call_requestData
  | call_waitForData_forever
  | call_waitForData (xTicksToWait : TickType_t)
  | call_processData
  | call_getData (dataType : DeviceDataType)
  | call_performAction (actionId actionParam : Z)
  | call_registerCallback (callback : EventCallback)
  | call_unregisterCallbacks
  | call_setEventNotification (eventType : EventType) (enable : bool)
  | call_setTestData (dataType : DeviceDataType) (vals : list float)
  | call_injectError (error : ErrorCode)
  | call_getPerformedActions
  | call_reset
  | call_getCallbackCount
  | sched_tick
  | sched_dispatch_all.

Definition exec (c : call) : M unit :=
  match c with
  | call_initialize => initialize
  | call_isInitialized => isInitialized;; mret tt
  | call_waitForInitialization t => waitForInitialization t;; mret tt
  | call_requestData => requestData;; mret tt
  | call_waitForData_forever => waitForData_forever;; mret tt
  | call_waitForData t => waitForData t;; mret tt
  | call_processData => processData
  | call_getData dataType => getData dataType;; mret tt
  | call_performAction actionId actionParam => performAction actionId actionParam;; mret tt
  | call_registerCallback callback => registerCallback callback;; mret tt
  | call_unregisterCallbacks => unregisterCallbacks;; mret tt
  | call_setEventNotification eventType enable => setEventNotification eventType enable;; mret tt
  | call_setTestData dataType vals => setTestData dataType vals
  | call_injectError error => injectError error
  | call_getPerformedActions => getPerformedActions;; mret tt
  | call_reset => reset
  | call_getCallbackCount => getCallbackCount;; mret tt
  | sched_tick => tick
  | sched_dispatch_all => dispatch_all
  end.

Definition run (cs : list call) : M unit := for_each exec cs.

Definition is_processData (c : call) : bool :=
  match c with call_processData => true | _ => false end.

(** ** Vocabulary of the statements *)

(** What the clock and the tasks of the mock may change: the event bits
    and the task list, nothing else. *)
Definition sched_step (s s' : MockDeviceInstance) : Prop :=
  exists g ts, s' = set_tasks ts (set_eventGroup g s).

(** The observer calls that running the ["MockNotify"] tasks among [ts]
    makes when [cbs] are the registered observers. *)
Definition deliveries_of (cbs : list EventCallback) (ts : list task)
    : list (EventCallback * EventNotification) :=
  flat_map (fun t => match t with
                     | MockDataAcq _ => []
                     | MockNotify n => map (fun callback => (callback, n)) cbs
                     end) ts.

(** The enable flag of an event type is set. *)
Definition event_enabled (s : MockDeviceInstance) (eventType : EventType) : bool :=
  match array_get (eventsEnabled s) eventType with
  | Some true => true
  | _ => false
  end.

(** The result [waitForData] computes from the bits it was handed. *)
Definition wait_result (bits : EventBits_t) (injected : ErrorCode) : ErrorCode :=
  if Z.testbit bits 1 then SUCCESS
  else if Z.testbit bits 2 then injected
  else TIMEOUT.

(** ** Scenarios

    Concrete devices, built by running the methods on the fixture of the
    tests. *)

(** The device the test fixture builds, [MockDeviceInstance(10, 20)],
    with delays of 10 and 20 ticks. *)
Definition fixture : MockDeviceInstance := MockDeviceInstance_new 10 20.

(** The object a computation leaves when it returns. *)
Definition state_after {A : Type} (m : M A) (s : MockDeviceInstance) : MockDeviceInstance :=
  match m s with
  | Ret _ s' => s'
  | _ => s
  end.

(** The fixture after [initialize()]. *)
Definition ready : MockDeviceInstance := state_after initialize fixture.

Definition samples : list float := [25.5%float; 26.0%float; 25.75%float].

(** The fixture after a whole cycle on [samples], with an error armed. *)
Definition armed : MockDeviceInstance :=
  state_after (setTestData TEMPERATURE samples;; requestData;; waitForData 50;;
               processData;; injectError COMMUNICATION_ERROR) ready.

(** The fixture with observer 1 registered, initialized, and its
    initialization notification delivered. *)
Definition observed : MockDeviceInstance :=
  state_after (registerCallback 1%nat;; initialize;; dispatch_all) fixture.

(** The fixture after one whole cycle on [samples]. *)
Definition cycled : MockDeviceInstance :=
  state_after (setTestData TEMPERATURE samples;; requestData;; waitForData 50;;
               processData) ready.

(** ** The static helpers of IDeviceInstance.h *)

(** [toUnderlyingType] on an error code: its position in the
    enumeration. *)
Definition toUnderlyingType (e : ErrorCode) : Z :=
  match e with
  | SUCCESS => 0
  | NOT_INITIALIZED => 1
  | TIMEOUT => 2
  | MUTEX_ERROR => 3
  | COMMUNICATION_ERROR => 4
  | INVALID_PARAMETER => 5
  | DATA_NOT_READY => 6
  | MEMORY_ERROR => 7
  | DEVICE_BUSY => 8
  | NOT_SUPPORTED => 9
  | UNKNOWN_ERROR => 10
  end.

(** [deviceErrorToString]: a [switch] over the eleven enumerators with a
    [default]; the argument is the integer the error value carries, so
    that values outside the enumeration (the tests pass 999) reach the
    default. *)
Definition deviceErrorToString (error : Z) : String.string :=
  match error with
  | 0 => "Success"
  | 1 => "Not initialized"
  | 2 => "Timeout"
  | 3 => "Mutex error"
  | 4 => "Communication error"
  | 5 => "Invalid parameter"
  | 6 => "Data not ready"
  | 7 => "Memory error"
  | 8 => "Device busy"
  | 9 => "Not supported"
  | 10 => "Unknown error"
  | _ => "Invalid error code"
  end%string.

Definition errorToString (error : Z) : String.string := deviceErrorToString error.

(** ** The contract helpers of DeviceTestUtils.h

    A helper is a sequence of calls and Unity assertions; a failed
    assertion ends the helper, which is modelled by the helper returning
    [false] at that point and [true] when it runs to its end. *)

#[global] Instance ErrorCode_eq_dec : EqDecision ErrorCode.
Proof. solve_decision. Defined.

Definition verifyInitializationContract : M bool :=
  before ← isInitialized;
  if before : bool then mret false
  else
    initialize;;
    after ← isInitialized;
    if negb after then mret false
    else
      initialize;;
      again ← isInitialized;
      mret again.


(** [ticks1] stands for [pdMS_TO_TICKS(1)]. *)
Definition verifyErrorHandling (ticks1 : TickType_t) : M bool :=
  init ← isInitialized;
  passed ← (if init : bool then
              requestData;;
              result ← waitForData ticks1;
              mret (bool_decide (result = SUCCESS) || bool_decide (result = TIMEOUT))
            else mret true);
  if negb passed then mret false
  else
    actionResult ← performAction (-1) (-1);
    mret ((0 <=? toUnderlyingType actionResult)
          && (toUnderlyingType actionResult <=? toUnderlyingType UNKNOWN_ERROR)).

(** ** More vocabulary *)

(** A ["MockDataAcq"] task that ends at the next tick. *)
Definition due (t : task) : bool :=
  match t with
  | MockDataAcq remaining => (remaining <=? 1)%N
  | MockNotify _ => false
  end.

(** What a task leaves in the task list after one tick, [notify] being
    the enable flag of the data-ready event. *)
Definition ticked_task (notify : bool) (t : task) : list task :=
  match t with
  | MockDataAcq remaining =>
      if (remaining <=? 1)%N then
        if notify then [MockNotify (mkEventNotification DATA_READY SUCCESS 0)] else []
      else [MockDataAcq (N.pred remaining)]
  | MockNotify n => [MockNotify n]
  end.



(** The calls that can wait without a bound, or index the flag array
    below zero; every other call is expected to return. *)
Definition returns_promptly (c : call) : bool :=
  match c with
  | call_waitForInitialization t => negb (t =? portMAX_DELAY)%N
  | call_waitForData t => negb (t =? portMAX_DELAY)%N
  | call_waitForData_forever => false
  | call_setEventNotification eventType _ => 0 <=? eventType
  | _ => true
  end.

(** The calls that write the error latch. *)
Definition writes_latch (c : call) : bool :=
  match c with
  | call_requestData | call_injectError _ | call_reset => true
  | _ => false
  end.

(** The calls that take the instance mutex on every path. *)
Definition takes_mutexInstance (c : call) : bool :=
  match c with
  | call_initialize | call_processData | call_getData _ | call_registerCallback _
  | call_unregisterCallbacks | call_setTestData _ _ | call_reset => true
  | _ => false
  end.

(** * Verification *)

#[local] Arguments Z.lor : simpl never.
#[local] Arguments Z.land : simpl never.
#[local] Arguments Z.ldiff : simpl never.
#[local] Arguments N.pred : simpl never.
#[local] Arguments N.leb : simpl never.
#[local] Arguments N.ltb : simpl never.
#[local] Arguments N.eqb : simpl never.
#[local] Arguments N.to_nat : simpl never.
#[local] Arguments N.max : simpl never.

(** Unfolds the methods and the primitives down to the state function. *)
Ltac mock_unfold :=
  unfold initialize, isInitialized, requestData, processData, getData, performAction,
    registerCallback, unregisterCallbacks, setEventNotification, setTestData,
    injectError, reset, notifyEvent,
    xSemaphoreTake, xSemaphoreGive, xTaskCreate, xEventGroupSetBits,
    xEventGroupClearBits, gets, modify, undefined_behaviour, block_forever,
    mbind, M_bind, mret, M_ret, held, set_held in *.

Ltac mock_simpl := mock_unfold; cbn in *.

(** Splits the array of enable flags into its five cells. *)
Ltac split_flags a :=
  let e0 := fresh "e0" in let e1 := fresh "e1" in let e2 := fresh "e2" in
  let e3 := fresh "e3" in let e4 := fresh "e4" in
  destruct a as [[[[e0 e1] e2] e3] e4].

(** ** The array of enable flags *)

Section EventsEnabled.
Variable a : flags5.

Lemma in_bounds_range (i : Z) : in_bounds i = true <-> 0 <= i < 5.
Proof. unfold in_bounds. rewrite andb_true_iff, Z.leb_le, Z.ltb_lt. tauto. Qed.

Lemma in_bounds_cases (i : Z) :
  in_bounds i = true -> i = 0 \/ i = 1 \/ i = 2 \/ i = 3 \/ i = 4.
Proof. rewrite in_bounds_range. lia. Qed.

Lemma array_get_in_bounds (i : Z) :
  in_bounds i = true -> exists b, array_get a i = Some b.
Proof.
  intros H. split_flags a.
  destruct (in_bounds_cases i H) as [-> | [-> | [-> | [-> | ->]]]]; cbn; eauto.
Qed.

Lemma array_get_out_of_bounds (i : Z) :
  in_bounds i = false -> array_get a i = None.
Proof.
  intros H. split_flags a.
  destruct i as [|p|p]; cbn in *; try discriminate; try reflexivity.
  repeat (destruct p as [p|p|]; cbn in *; try discriminate; try reflexivity).
Qed.

Lemma array_set_out_of_bounds (i : Z) (b : bool) :
  in_bounds i = false -> array_set a i b = None.
Proof.
  intros H. split_flags a.
  destruct i as [|p|p]; cbn in *; try discriminate; try reflexivity.
  repeat (destruct p as [p|p|]; cbn in *; try discriminate; try reflexivity).
Qed.

Lemma array_set_in_bounds (i : Z) (b : bool) :
  in_bounds i = true ->
  exists a', array_set a i b = Some a' /\ array_get a' i = Some b /\
    forall j, j <> i -> array_get a' j = array_get a j.
Proof.
  intros H. split_flags a.
  destruct (in_bounds_cases i H) as [-> | [-> | [-> | [-> | ->]]]];
    cbn; eexists; (split; [reflexivity|]); (split; [reflexivity|]);
    intros j Hj; destruct j as [|p|p]; try reflexivity; try congruence;
    repeat (destruct p as [p|p|]; try reflexivity; try congruence).
Qed.
End EventsEnabled.

(** ** The clock and the tasks *)

Lemma sched_step_refl (s : MockDeviceInstance) : sched_step s s.
Proof. exists (eventGroup s), (tasks s). destruct s; reflexivity. Qed.

Lemma sched_step_trans (s1 s2 s3 : MockDeviceInstance) :
  sched_step s1 s2 -> sched_step s2 s3 -> sched_step s1 s3.
Proof.
  intros (g & ts & ->) (g' & ts' & ->). exists g', ts'. destruct s1; reflexivity.
Qed.

Lemma sched_step_set_tasks (ts : list task) (s : MockDeviceInstance) :
  sched_step s (set_tasks ts s).
Proof. exists (eventGroup s), ts. destruct s; reflexivity. Qed.

Lemma sched_step_set_eventGroup (g : EventBits_t) (s : MockDeviceInstance) :
  sched_step s (set_eventGroup g s).
Proof. exists g, (tasks s). destruct s; reflexivity. Qed.

Create HintDb mock.
#[local] Hint Resolve sched_step_refl sched_step_set_tasks sched_step_set_eventGroup : mock.

(** A scheduler step leaves every member but the bits and the tasks. *)
Lemma sched_step_frame (s s' : MockDeviceInstance) :
  sched_step s s' ->
  initialized s' = initialized s /\ dataRequested s' = dataRequested s /\
  dataProcessed s' = dataProcessed s /\ mutexInstance s' = mutexInstance s /\
  mutexInterface s' = mutexInterface s /\ testData s' = testData s /\
  nextError s' = nextError s /\ shouldFailNext s' = shouldFailNext s /\
  callbacks s' = callbacks s /\ eventsEnabled s' = eventsEnabled s /\
  performedActions s' = performedActions s /\ initDelay s' = initDelay s /\
  dataDelay s' = dataDelay s /\ delivered s' = delivered s.
Proof. intros (g & ts & ->). destruct s; cbn. repeat split. Qed.

(** [notifyEvent] by cases on the flag it reads. *)
Lemma notifyEvent_eq (type : EventType) (error : ErrorCode) (customData : Z)
    (s : MockDeviceInstance) :
  notifyEvent type error customData s =
    match array_get (eventsEnabled s) type with
    | Some true =>
        Ret tt (set_tasks (tasks s ++ [MockNotify (mkEventNotification type error customData)]) s)
    | Some false => Ret tt s
    | None => Undefined
    end.
Proof.
  unfold notifyEvent, gets, xTaskCreate, modify, undefined_behaviour, mbind, M_bind, mret, M_ret.
  destruct (array_get (eventsEnabled s) type) as [[]|]; reflexivity.
Qed.

Lemma notifyEvent_in_bounds (type : EventType) (error : ErrorCode) (customData : Z)
    (s : MockDeviceInstance) :
  in_bounds type = true ->
  exists s', notifyEvent type error customData s = Ret tt s' /\ sched_step s s'.
Proof.
  intros H. rewrite notifyEvent_eq.
  destruct (array_get_in_bounds (eventsEnabled s) type H) as [[] ->]; eauto with mock.
Qed.

Lemma tick_task_returns (t : task) (s : MockDeviceInstance) :
  exists s', tick_task t s = Ret tt s' /\ sched_step s s'.
Proof.
  destruct t as [remaining | n]; cbn.
  - destruct (remaining <=? 1)%N.
    + unfold mbind, M_bind, xEventGroupSetBits, modify.
      destruct (notifyEvent_in_bounds DATA_READY SUCCESS 0
                  (set_eventGroup (Z.lor (eventGroup s) DATA_READY_BIT) s) eq_refl)
        as (s' & -> & Hs').
      exists s'. split; [reflexivity|].
      eapply sched_step_trans; [|exact Hs']. auto with mock.
    + eexists. split; [reflexivity|]. auto with mock.
  - eexists. split; [reflexivity|]. auto with mock.
Qed.

Lemma for_each_tick_task (ts : list task) (s : MockDeviceInstance) :
  exists s', for_each tick_task ts s = Ret tt s' /\ sched_step s s'.
Proof.
  revert s. induction ts as [|t ts IH]; intros s; cbn.
  - exists s. split; [reflexivity | apply sched_step_refl].
  - destruct (tick_task_returns t s) as (s1 & E1 & H1).
    destruct (IH s1) as (s2 & E2 & H2).
    exists s2. unfold mbind, M_bind. rewrite E1. split; [exact E2|].
    eapply sched_step_trans; eassumption.
Qed.

(** A tick always ends, and is a scheduler step. *)
Lemma tick_returns (s : MockDeviceInstance) :
  exists s', tick s = Ret tt s' /\ sched_step s s'.
Proof.
  unfold tick, gets, modify, mbind, M_bind.
  destruct (for_each_tick_task (tasks s) (set_tasks [] s)) as (s' & E & H).
  exists s'. split; [exact E|].
  eapply sched_step_trans; [|exact H]. auto with mock.
Qed.

Lemma sleep_returns (n : nat) (s : MockDeviceInstance) :
  exists s', sleep n s = Ret tt s' /\ sched_step s s'.
Proof.
  revert s. induction n as [|n IH]; intros s; cbn.
  - exists s. split; [reflexivity | apply sched_step_refl].
  - destruct (tick_returns s) as (s1 & E1 & H1).
    destruct (IH s1) as (s2 & E2 & H2).
    exists s2. unfold mbind, M_bind. rewrite E1. split; [exact E2|].
    eapply sched_step_trans; eassumption.
Qed.

Lemma vTaskDelay_returns (d : TickType_t) (s : MockDeviceInstance) :
  exists s', vTaskDelay d s = Ret tt s' /\ sched_step s s'.
Proof. apply sleep_returns. Qed.

(** ** Waiting on the event group *)

Section WaitBits.
Variables (mask : EventBits_t) (xWaitForAllBits : bool).

(** Bits that satisfy the wait end it at once, whatever the timeout. *)
Lemma wait_bits_satisfied (n : nat) (expired : EventBits_t -> M EventBits_t)
    (s : MockDeviceInstance) :
  wait_satisfied (eventGroup s) mask xWaitForAllBits = true ->
  wait_bits n mask xWaitForAllBits expired s = Ret (eventGroup s) s.
Proof.
  intros H. destruct n; cbn; unfold mbind, M_bind, gets; rewrite H; reflexivity.
Qed.

(** With a timeout the wait always ends, with the bits of that moment. *)
Lemma wait_bits_timeout (n : nat) (s : MockDeviceInstance) :
  exists s', wait_bits n mask xWaitForAllBits mret s = Ret (eventGroup s') s' /\
             sched_step s s'.
Proof.
  revert s. induction n as [|n IH]; intros s; cbn; unfold mbind, M_bind, gets;
    destruct (wait_satisfied (eventGroup s) mask xWaitForAllBits);
    try (exists s; split; [reflexivity | apply sched_step_refl]).
  destruct (tick_returns s) as (s1 & -> & H1).
  destruct (IH s1) as (s2 & E2 & H2).
  exists s2. split; [exact E2|]. eapply sched_step_trans; eassumption.
Qed.

(** Without a timeout the wait ends only on bits that satisfy it. *)
Lemma wait_bits_forever (n : nat) (s : MockDeviceInstance) :
  wait_bits n mask xWaitForAllBits (fun _ => block_forever) s = Blocks \/
  exists s', wait_bits n mask xWaitForAllBits (fun _ => block_forever) s
               = Ret (eventGroup s') s' /\
             sched_step s s' /\
             wait_satisfied (eventGroup s') mask xWaitForAllBits = true.
Proof.
  revert s. induction n as [|n IH]; intros s; cbn; unfold mbind, M_bind, gets;
    destruct (wait_satisfied (eventGroup s) mask xWaitForAllBits) eqn:Hs;
    try (right; exists s; repeat split; [apply sched_step_refl | exact Hs]);
    try (left; reflexivity).
  destruct (tick_returns s) as (s1 & -> & H1).
  destruct (IH s1) as [E2 | (s2 & E2 & H2 & Hsat)].
  - left. exact E2.
  - right. exists s2. repeat split; [exact E2 | | exact Hsat].
    eapply sched_step_trans; eassumption.
Qed.

(** [xEventGroupWaitBits] with [xClearOnExit = pdFALSE]: the bits it
    returns are the bits it leaves, and only [portMAX_DELAY] can keep
    the caller for ever. *)
Lemma xEventGroupWaitBits_no_clear (xTicksToWait : TickType_t) (s : MockDeviceInstance) :
  match xEventGroupWaitBits mask false xWaitForAllBits xTicksToWait s with
  | Ret bits s' => bits = eventGroup s' /\ sched_step s s'
  | Blocks => xTicksToWait = portMAX_DELAY /\
              wait_satisfied (eventGroup s) mask xWaitForAllBits = false
  | Undefined => False
  end.
Proof.
  unfold xEventGroupWaitBits. cbn [andb]. unfold mbind at 1 2. unfold M_bind at 1 2.
  destruct (xTicksToWait =? portMAX_DELAY)%N eqn:Hmax.
  - apply N.eqb_eq in Hmax. unfold mbind, M_bind, gets.
    destruct (wait_bits_forever (N.to_nat (latest_wake (tasks s))) s)
      as [E | (s' & -> & Hstep & _)].
    + rewrite E. split; [exact Hmax|].
      destruct (wait_satisfied (eventGroup s) mask xWaitForAllBits) eqn:Hs; [|reflexivity].
      rewrite (wait_bits_satisfied _ _ s Hs) in E. discriminate E.
    + cbn. split; [reflexivity | exact Hstep].
  - destruct (wait_bits_timeout (N.to_nat xTicksToWait) s) as (s' & -> & Hstep).
    cbn. split; [reflexivity | exact Hstep].
Qed.

Lemma xEventGroupWaitBits_satisfied (xTicksToWait : TickType_t) (s : MockDeviceInstance) :
  wait_satisfied (eventGroup s) mask xWaitForAllBits = true ->
  xEventGroupWaitBits mask false xWaitForAllBits xTicksToWait s = Ret (eventGroup s) s.
Proof.
  intros H. unfold xEventGroupWaitBits. cbn [andb]. unfold mbind, M_bind, gets.
  destruct (xTicksToWait =? portMAX_DELAY)%N;
    rewrite (wait_bits_satisfied _ _ s H); reflexivity.
Qed.
End WaitBits.

(** ** The indefinite wait waits long enough *)

Lemma latest_wake_app (ts ts' : list task) :
  latest_wake (ts ++ ts') = N.max (latest_wake ts) (latest_wake ts').
Proof.
  induction ts as [|[r | n] ts IH]; cbn [app latest_wake]; [lia | | exact IH].
  rewrite IH. lia.
Qed.

(** A tick brings the last wake-up one tick closer, and leaves the bits
    alone once no ["MockDataAcq"] task is left. *)
Lemma for_each_tick_task_wake (ts : list task) (s : MockDeviceInstance) :
  exists s', for_each tick_task ts s = Ret tt s' /\
    (latest_wake (tasks s') <= N.max (latest_wake (tasks s)) (N.pred (latest_wake ts)))%N /\
    (latest_wake ts = 0%N -> eventGroup s' = eventGroup s).
Proof.
  revert s. induction ts as [|t ts IH]; intros s.
  - exists s. cbn. repeat split. lia.
  - cbn [for_each]. unfold mbind at 1, M_bind at 1.
    assert (exists s1, tick_task t s = Ret tt s1 /\
              (latest_wake (tasks s1)
               <= N.max (latest_wake (tasks s)) (N.pred (latest_wake [t])))%N /\
              (latest_wake [t] = 0%N -> eventGroup s1 = eventGroup s))
      as (s1 & -> & Hw1 & Hg1).
    { destruct t as [r | n]; cbn [tick_task].
      - destruct (N.leb_spec r 1).
        + unfold mbind, M_bind, xEventGroupSetBits, modify. rewrite notifyEvent_eq.
          destruct s; cbn. split_flags eventsEnabled0. cbn.
          destruct e1; cbn; (eexists; split; [reflexivity|]); cbn;
            rewrite ?latest_wake_app; cbn; split; lia.
        + eexists. split; [reflexivity|]. destruct s; cbn.
          rewrite latest_wake_app. cbn. split; lia.
      - eexists. split; [reflexivity|]. destruct s; cbn.
        rewrite latest_wake_app. cbn. split; [lia | reflexivity]. }
    destruct (IH s1) as (s2 & -> & Hw2 & Hg2).
    exists s2. split; [reflexivity|].
    change (t :: ts) with ([t] ++ ts). rewrite latest_wake_app. split; [lia|].
    intros H0. rewrite Hg2, Hg1 by lia. reflexivity.
Qed.

Lemma tick_wake (s : MockDeviceInstance) :
  exists s', tick s = Ret tt s' /\
    (latest_wake (tasks s') <= N.pred (latest_wake (tasks s)))%N /\
    (latest_wake (tasks s) = 0%N -> eventGroup s' = eventGroup s).
Proof.
  unfold tick, gets, modify, mbind, M_bind.
  destruct (for_each_tick_task_wake (tasks s) (set_tasks [] s)) as (s' & E & Hw & Hg).
  exists s'. split; [exact E|].
  destruct s; cbn in *. split; [lia | exact Hg].
Qed.

(** Once the ticks waited reach the last wake-up, waiting one tick more
    changes nothing: the outcome of the indefinite wait does not depend
    on the bound, and [Blocks] stands for a wait that never ends. *)
Lemma wait_bits_forever_enough (mask : EventBits_t) (xWaitForAllBits : bool)
    (n : nat) (s : MockDeviceInstance) :
  (N.to_nat (latest_wake (tasks s)) <= n)%nat ->
  wait_bits (S n) mask xWaitForAllBits (fun _ => block_forever) s
  = wait_bits n mask xWaitForAllBits (fun _ => block_forever) s.
Proof.
  revert s. induction n as [|n IH]; intros s Hn.
  - destruct (wait_satisfied (eventGroup s) mask xWaitForAllBits) eqn:Hs.
    + rewrite !wait_bits_satisfied by exact Hs. reflexivity.
    + cbn. unfold mbind, M_bind, gets. rewrite Hs.
      destruct (tick_wake s) as (s1 & -> & _ & Hg). rewrite Hg, Hs by lia. reflexivity.
  - destruct (wait_satisfied (eventGroup s) mask xWaitForAllBits) eqn:Hs.
    + rewrite !wait_bits_satisfied by exact Hs. reflexivity.
    + change (wait_bits (S (S n)) mask xWaitForAllBits (fun _ => block_forever) s)
        with (mbind (fun bits => if wait_satisfied bits mask xWaitForAllBits then mret bits
                else tick;; wait_bits (S n) mask xWaitForAllBits (fun _ => block_forever))
                (gets eventGroup) s).
      change (wait_bits (S n) mask xWaitForAllBits (fun _ => block_forever) s)
        with (mbind (fun bits => if wait_satisfied bits mask xWaitForAllBits then mret bits
                else tick;; wait_bits n mask xWaitForAllBits (fun _ => block_forever))
                (gets eventGroup) s).
      unfold mbind at 1 3, M_bind at 1 3, gets. rewrite Hs.
      unfold mbind, M_bind.
      destruct (tick_wake s) as (s1 & -> & Hw & _).
      apply IH. lia.
Qed.

(** ** Event bits *)

Lemma land_pow2_testbit (bits n : Z) :
  0 <= n -> negb (Z.land bits (2 ^ n) =? 0) = Z.testbit bits n.
Proof.
  intros Hn. destruct (Z.testbit bits n) eqn:Hb.
  - apply negb_true_iff, Z.eqb_neq. intros H0.
    assert (Z.testbit (Z.land bits (2 ^ n)) n = true) as Ht
      by (rewrite Z.land_spec, Hb, Z.pow2_bits_true; [reflexivity | exact Hn]).
    rewrite H0, Z.bits_0 in Ht. discriminate Ht.
  - apply negb_false_iff, Z.eqb_eq, Z.bits_inj'. intros m Hm.
    rewrite Z.land_spec, Z.bits_0, Z.pow2_bits_eqb by exact Hn.
    destruct (Z.eqb_spec n m) as [<- | _]; [rewrite Hb|]; auto using andb_false_r.
Qed.

Lemma DATA_READY_BIT_testbit (bits : EventBits_t) :
  negb (Z.land bits DATA_READY_BIT =? 0) = Z.testbit bits 1.
Proof. apply (land_pow2_testbit bits 1). lia. Qed.

Lemma ERROR_BIT_testbit (bits : EventBits_t) :
  negb (Z.land bits ERROR_BIT =? 0) = Z.testbit bits 2.
Proof. apply (land_pow2_testbit bits 2). lia. Qed.

(** The wait of [waitForData] is satisfied by either of its two bits. *)
Lemma wait_satisfied_data_or_error (bits : EventBits_t) :
  wait_satisfied bits (Z.lor DATA_READY_BIT ERROR_BIT) false
  = Z.testbit bits 1 || Z.testbit bits 2.
Proof.
  unfold wait_satisfied. rewrite <- DATA_READY_BIT_testbit, <- ERROR_BIT_testbit.
  rewrite Z.land_lor_distr_r.
  destruct (Z.eqb_spec (Z.land bits DATA_READY_BIT) 0) as [E1 | E1];
    destruct (Z.eqb_spec (Z.land bits ERROR_BIT) 0) as [E2 | E2]; cbn;
    [apply negb_false_iff, Z.eqb_eq, Z.lor_eq_0_iff; auto | | | ];
    apply negb_true_iff, Z.eqb_neq; rewrite Z.lor_eq_0_iff; tauto.
Qed.

(** ** The methods, one equation per path *)

Lemma xSemaphoreTake_free (m : SemaphoreHandle_t) (s : MockDeviceInstance) :
  held m s = false ->
  xSemaphoreTake m portMAX_DELAY s = Ret true (set_held m true s).
Proof. intros H. unfold xSemaphoreTake, gets, modify, mbind, M_bind. rewrite H. reflexivity. Qed.

Lemma xSemaphoreTake_held (m : SemaphoreHandle_t) (s : MockDeviceInstance) :
  held m s = true -> xSemaphoreTake m portMAX_DELAY s = Blocks.
Proof. intros H. unfold xSemaphoreTake, gets, mbind, M_bind. rewrite H. reflexivity. Qed.

Lemma setTestData_free (dataType : DeviceDataType) (vals : list float) (s : MockDeviceInstance) :
  mutexInstance s = false ->
  setTestData dataType vals s = Ret tt (set_testData (<[dataType := vals]> (testData s)) s).
Proof. intros H. destruct s; cbn in *; subst. reflexivity. Qed.

Lemma processData_free (s : MockDeviceInstance) :
  mutexInstance s = false -> processData s = Ret tt (set_dataProcessed true s).
Proof. intros H. destruct s; cbn in *; subst. reflexivity. Qed.

Lemma getData_free (dataType : DeviceDataType) (s : MockDeviceInstance) :
  mutexInstance s = false ->
  getData dataType s =
    Ret (if initialized s && dataProcessed s
         then match testData s !! dataType with
              | Some v => mkDataResult true v
              | None => mkDataResult false []
              end
         else mkDataResult false []) s.
Proof.
  intros Hm. destruct s; cbn in *; subst. mock_simpl.
  destruct initialized0, dataProcessed0; cbn; try reflexivity.
  destruct (_ !! _); reflexivity.
Qed.

Lemma requestData_not_initialized (s : MockDeviceInstance) :
  initialized s = false -> requestData s = Ret false s.
Proof. intros H. destruct s; cbn in *; subst. reflexivity. Qed.

(** The latch path: the latch is cleared and the error event is raised. *)
Lemma requestData_injected (s : MockDeviceInstance) :
  initialized s = true -> shouldFailNext s = true ->
  requestData s =
    mbind (fun _ => mret false)
      (notifyEvent ERROR_OCCURRED (nextError s) 0) (set_shouldFailNext false s).
Proof. intros Hi Hf. destruct s; cbn in *; subst. reflexivity. Qed.

(** The acquisition path: the flags are set and everything after that
    is a matter of bits and tasks. *)
Lemma requestData_started (s : MockDeviceInstance) :
  initialized s = true -> shouldFailNext s = false -> mutexInterface s = false ->
  exists s', requestData s = Ret true s' /\
             sched_step (set_dataProcessed false (set_dataRequested true s)) s'.
Proof.
  intros Hi Hf Hm. destruct s; cbn in *; subst. mock_simpl.
  destruct (0 <? dataDelay0)%N; cbn.
  - eexists. split; [reflexivity|]. eexists _, _. reflexivity.
  - split_flags eventsEnabled0. destruct e1; cbn;
      (eexists; split; [reflexivity|]; eexists _, _; reflexivity).
Qed.

(** [requestData] returns [false] on two paths only. *)
Lemma requestData_failed (s s' : MockDeviceInstance) :
  requestData s = Ret false s' ->
  initialized s = false \/ (initialized s = true /\ shouldFailNext s = true).
Proof.
  destruct (initialized s) eqn:Hi; [|auto].
  destruct (shouldFailNext s) eqn:Hf; [auto|].
  destruct (mutexInterface s) eqn:Hm.
  - destruct s; cbn in *; subst. discriminate.
  - destruct (requestData_started s Hi Hf Hm) as (s1 & -> & _). discriminate.
Qed.

Lemma performAction_not_initialized (actionId actionParam : Z) (s : MockDeviceInstance) :
  initialized s = false -> performAction actionId actionParam s = Ret NOT_INITIALIZED s.
Proof. intros H. destruct s; cbn in *; subst. reflexivity. Qed.

(** The state a failed [requestData] leaves, path by path. *)
Lemma requestData_failed_state (s s' : MockDeviceInstance) :
  requestData s = Ret false s' ->
  s' = s \/
  s' = set_shouldFailNext false s \/
  s' = set_tasks (tasks s ++ [MockNotify (mkEventNotification ERROR_OCCURRED (nextError s) 0)])
         (set_shouldFailNext false s).
Proof.
  intros H. destruct (requestData_failed s s' H) as [Hi | [Hi Hf]].
  - rewrite (requestData_not_initialized s Hi) in H. left. congruence.
  - rewrite (requestData_injected s Hi Hf) in H. unfold mbind, M_bind in H.
    rewrite notifyEvent_eq in H. right.
    destruct s; cbn in *. split_flags eventsEnabled0. cbn in H.
    destruct e2; cbn in H; inversion H; auto.
Qed.

(** * The claims *)

(** C3. On a device on which [initialize] has not run ([initialized] is
    false), [requestData] fails, taking the not-initialized exit, which
    leaves the object as it was (the latch included, so the failure is
    not an injected one), and [performAction] returns [NOT_INITIALIZED]
    for all values of [actionId] and [actionParam]. *)
Theorem not_initialized_rejects (s : MockDeviceInstance) :
  initialized s = false ->
  requestData s = Ret false s /\
  forall actionId actionParam : Z,
    performAction actionId actionParam s = Ret NOT_INITIALIZED s.
Proof.
  intros H. split.
  - apply requestData_not_initialized, H.
  - intros. apply performAction_not_initialized, H.
Qed.

Lemma not_initialized_rejects_witness :
  initialized fixture = false /\
  requestData fixture = Ret false fixture /\
  forall actionId actionParam : Z,
    performAction actionId actionParam fixture = Ret NOT_INITIALIZED fixture.
Proof.
  split; [reflexivity | apply (not_initialized_rejects fixture); reflexivity].
Defined.

(** C10. Whenever [requestData] returns failure, the device was not
    initialized or the fail-next-call latch was armed, and the call left
    the acquisition state alone: [dataRequested], [dataProcessed], the
    event bits (the data-ready bit among them) and the sample table are
    what they were, so [getData] answers after the failed request what it
    answered before it. *)
Theorem failed_request_keeps_acquisition_state (s s' : MockDeviceInstance) :
  requestData s = Ret false s' ->
  (initialized s = false \/ shouldFailNext s = true) /\
  dataRequested s' = dataRequested s /\
  dataProcessed s' = dataProcessed s /\
  eventGroup s' = eventGroup s /\
  testData s' = testData s /\
  forall dataType : DeviceDataType,
    mutexInstance s = false ->
    exists r, getData dataType s = Ret r s /\ getData dataType s' = Ret r s'.
Proof.
  intros H. split.
  { destruct (requestData_failed s s' H) as [Hi | [_ Hf]]; auto. }
  assert (initialized s' = initialized s /\ dataRequested s' = dataRequested s /\
          dataProcessed s' = dataProcessed s /\ eventGroup s' = eventGroup s /\
          testData s' = testData s /\ mutexInstance s' = mutexInstance s)
    as (Hi & Hr & Hp & Hg & Ht & Hm).
  { destruct (requestData_failed_state s s' H) as [-> | [-> | ->]];
      destruct s; cbn; repeat split. }
  repeat (split; [assumption|]).
  intros dataType Hfree. eexists. split.
  - apply getData_free, Hfree.
  - rewrite getData_free by congruence. rewrite Hi, Hp, Ht. reflexivity.
Qed.

(** [waitForData] in terms of the bits [xEventGroupWaitBits] hands it. *)
Lemma waitForData_eq (xTicksToWait : TickType_t) (s : MockDeviceInstance) :
  waitForData xTicksToWait s =
    match xEventGroupWaitBits (Z.lor DATA_READY_BIT ERROR_BIT) false false xTicksToWait s with
    | Ret bits s' => Ret (wait_result bits (nextError s')) s'
    | Blocks => Blocks
    | Undefined => Undefined
    end.
Proof.
  unfold waitForData, mbind, M_bind.
  destruct (xEventGroupWaitBits _ false false xTicksToWait s) as [bits s'| |]; try reflexivity.
  rewrite DATA_READY_BIT_testbit, ERROR_BIT_testbit. unfold wait_result, gets, mret, M_ret.
  destruct (Z.testbit bits 1), (Z.testbit bits 2); reflexivity.
Qed.

Lemma waitForData_sched_step (xTicksToWait : TickType_t) (r : ErrorCode)
    (s s' : MockDeviceInstance) :
  waitForData xTicksToWait s = Ret r s' -> sched_step s s'.
Proof.
  rewrite waitForData_eq.
  pose proof (xEventGroupWaitBits_no_clear (Z.lor DATA_READY_BIT ERROR_BIT) false xTicksToWait s) as H.
  destruct (xEventGroupWaitBits _ false false xTicksToWait s) as [bits s1| |]; try discriminate.
  intros E. inversion E; subst. apply H.
Qed.

(** What [requestData] leaves of the members the cycle reads later. *)
Lemma requestData_frame (s : MockDeviceInstance) :
  initialized s = true -> mutexInterface s = false ->
  exists s', requestData s = Ret (negb (shouldFailNext s)) s' /\
             initialized s' = true /\ mutexInstance s' = mutexInstance s /\
             mutexInterface s' = false /\ testData s' = testData s /\
             shouldFailNext s' = false.
Proof.
  intros Hi Hm. destruct (shouldFailNext s) eqn:Hf.
  - rewrite (requestData_injected s Hi Hf). unfold mbind, M_bind. rewrite notifyEvent_eq.
    destruct s; cbn in *; subst. split_flags eventsEnabled0. cbn.
    destruct e2; cbn; eexists; (split; [reflexivity|]); cbn; repeat split.
  - destruct (requestData_started s Hi Hf Hm) as (s' & E & Hstep).
    exists s'. split; [exact E|].
    apply sched_step_frame in Hstep. destruct s; cbn in *; subst. intuition congruence.
Qed.

(** C1. On an initialized device, for every data type [T] and sample
    sequence [S]: after [setTestData(T, S)], the cycle [requestData],
    [waitForData] returning [SUCCESS], [processData], [getData(T)] ends
    with a successful result whose values are [S] itself, the same
    samples in the same order (so within every tolerance, the 0.01 of the
    tests included).  Each call of the cycle returns when the two
    mutexes are free at the start. *)
Theorem acquisition_round_trip (s : MockDeviceInstance) (T : DeviceDataType)
    (S : list float) (xTicksToWait : TickType_t) :
  initialized s = true -> mutexInstance s = false -> mutexInterface s = false ->
  exists s1 s2,
    setTestData T S s = Ret tt s1 /\
    requestData s1 = Ret (negb (shouldFailNext s)) s2 /\
    forall s3, waitForData xTicksToWait s2 = Ret SUCCESS s3 ->
      exists s4, processData s3 = Ret tt s4 /\
                 getData T s4 = Ret (mkDataResult true S) s4.
Proof.
  intros Hi Hm Hmi.
  pose (s1 := set_testData (<[T := S]> (testData s)) s).
  assert (initialized s1 = true /\ mutexInterface s1 = false /\ mutexInstance s1 = false /\
          shouldFailNext s1 = shouldFailNext s /\ testData s1 = <[T := S]> (testData s))
    as (Hi1 & Hmi1 & Hm1 & Hf1 & Ht1) by (subst s1; destruct s; cbn in *; auto).
  destruct (requestData_frame s1 Hi1 Hmi1) as (s2 & E2 & Hi2 & Hm2 & _ & Ht2 & _).
  exists s1, s2. split; [apply setTestData_free, Hm|].
  split; [rewrite <- Hf1; exact E2|].
  intros s3 Hw. apply waitForData_sched_step, sched_step_frame in Hw.
  destruct Hw as (Hi3 & _ & _ & Hm3 & _ & Ht3 & _).
  assert (mutexInstance s3 = false) as Hfree by congruence.
  exists (set_dataProcessed true s3). split; [apply processData_free, Hfree|].
  rewrite getData_free by (destruct s3; exact Hfree).
  assert (initialized (set_dataProcessed true s3) = true) as -> by (destruct s3; cbn in *; congruence).
  assert (dataProcessed (set_dataProcessed true s3) = true) as -> by (destruct s3; reflexivity).
  assert (testData (set_dataProcessed true s3) = <[T := S]> (testData s)) as ->
    by (destruct s3; cbn in *; congruence).
  cbn. rewrite lookup_insert_eq. reflexivity.
Qed.

Lemma acquisition_round_trip_witness :
  initialized ready = true /\ mutexInstance ready = false /\ mutexInterface ready = false /\
  exists s1 s2 s3 s4,
    setTestData TEMPERATURE samples ready = Ret tt s1 /\
    requestData s1 = Ret true s2 /\
    waitForData 50 s2 = Ret SUCCESS s3 /\
    processData s3 = Ret tt s4 /\
    getData TEMPERATURE s4 = Ret (mkDataResult true samples) s4.
Proof.
  repeat (split; [reflexivity|]).
  destruct (acquisition_round_trip ready TEMPERATURE samples 50%N eq_refl eq_refl eq_refl)
    as (s1 & s2 & E1 & E2 & H).
  assert (exists s3, waitForData 50 s2 = Ret SUCCESS s3) as (s3 & Hw).
  { vm_compute in E1. injection E1 as <-.
    vm_compute in E2. injection E2 as <-.
    eexists. vm_compute. reflexivity. }
  destruct (H s3 Hw) as (s4 & E4 & E5).
  exists s1, s2, s3, s4. auto.
Defined.

Lemma failed_request_keeps_acquisition_state_witness :
  requestData armed = Ret false (state_after requestData armed) /\
  getData TEMPERATURE (state_after requestData armed)
    = Ret (mkDataResult true samples) (state_after requestData armed).
Proof.
  assert (requestData armed = Ret false (state_after requestData armed)) as E
    by (vm_compute; reflexivity).
  split; [exact E|].
  destruct (failed_request_keeps_acquisition_state armed _ E) as (_ & _ & _ & _ & _ & H).
  destruct (H TEMPERATURE eq_refl) as (r & E1 & E2).
  rewrite E2. vm_compute in E1. injection E1 as <-. reflexivity.
Defined.

(** C8. For every timeout, [waitForData(timeout)] has a defined
    behaviour, and when it returns, the result is decided by the bits the
    wait ended on: [SUCCESS] when the data-ready bit is set, else the
    injected error code [nextError] when the error bit is set, else
    [TIMEOUT].  Those bits are not consumed: the event group holds after
    the call the very bits the wait returned, the call changed nothing
    but what the clock and the tasks change, and when a waited bit ended
    the wait, any further [waitForData] returns the same result at once.
    Only the indefinite timeout [portMAX_DELAY] can keep the caller for
    ever, and only while neither bit is set. *)
Theorem waitForData_outcome (xTicksToWait : TickType_t) (s : MockDeviceInstance) :
  match waitForData xTicksToWait s with
  | Ret r s' =>
      xEventGroupWaitBits (Z.lor DATA_READY_BIT ERROR_BIT) false false xTicksToWait s
        = Ret (eventGroup s') s' /\
      r = wait_result (eventGroup s') (nextError s) /\
      sched_step s s' /\
      (Z.testbit (eventGroup s') 1 || Z.testbit (eventGroup s') 2 = true ->
       forall t : TickType_t, waitForData t s' = Ret r s')
  | Blocks =>
      xTicksToWait = portMAX_DELAY /\
      Z.testbit (eventGroup s) 1 = false /\ Z.testbit (eventGroup s) 2 = false
  | Undefined => False
  end.
Proof.
  rewrite waitForData_eq.
  pose proof (xEventGroupWaitBits_no_clear (Z.lor DATA_READY_BIT ERROR_BIT) false xTicksToWait s) as H.
  destruct (xEventGroupWaitBits _ false false xTicksToWait s) as [bits s'| |]; [| |exact H].
  - destruct H as [-> Hstep].
    pose proof (sched_step_frame s s' Hstep) as (_ & _ & _ & _ & _ & _ & Hne & _).
    rewrite Hne. repeat split; [exact Hstep|].
    intros Hset t. rewrite waitForData_eq.
    rewrite xEventGroupWaitBits_satisfied
      by (rewrite wait_satisfied_data_or_error; exact Hset).
    rewrite Hne. reflexivity.
  - destruct H as [Hmax Hsat]. split; [exact Hmax|].
    rewrite wait_satisfied_data_or_error in Hsat. apply orb_false_iff in Hsat. exact Hsat.
Qed.

(** The three results on the fixture: the acquisition takes 20 ticks, so
    a wait of 5 ticks times out and a wait of 50 succeeds; an error bit
    set from outside through the event-group handle yields the injected
    code, unless the data-ready bit is set as well. *)
Example waitForData_times_out :
  exists s', waitForData 5 (state_after requestData ready) = Ret TIMEOUT s' /\
             eventGroup s' = INIT_COMPLETE_BIT.
Proof. eexists. split; vm_compute; reflexivity. Qed.

Example waitForData_succeeds :
  exists s', waitForData 50 (state_after requestData ready) = Ret SUCCESS s' /\
             eventGroup s' = Z.lor INIT_COMPLETE_BIT DATA_READY_BIT.
Proof. eexists. split; vm_compute; reflexivity. Qed.

Example waitForData_injected_error :
  let s := set_eventGroup ERROR_BIT (state_after (injectError DEVICE_BUSY) ready) in
  waitForData 50 s = Ret DEVICE_BUSY s.
Proof. vm_compute. reflexivity. Qed.

Example waitForData_data_ready_first :
  let s := set_eventGroup (Z.lor DATA_READY_BIT ERROR_BIT)
             (state_after (injectError DEVICE_BUSY) ready) in
  waitForData 50 s = Ret SUCCESS s.
Proof. vm_compute. reflexivity. Qed.

Example waitForData_forever_blocks :
  waitForData portMAX_DELAY ready = Blocks.
Proof. vm_compute. reflexivity. Qed.

(** ** Notification dispatch *)

Lemma run_MockNotify_eq (notif : EventNotification) (s : MockDeviceInstance) :
  run_MockNotify notif s =
    Ret tt (set_delivered (delivered s ++ map (fun callback => (callback, notif)) (callbacks s)) s).
Proof.
  unfold run_MockNotify, gets, mbind, M_bind.
  assert (forall cbs s0,
            for_each (fun callback =>
                        modify (fun s => set_delivered (delivered s ++ [(callback, notif)]) s))
              cbs s0
            = Ret tt (set_delivered (delivered s0 ++ map (fun callback => (callback, notif)) cbs) s0))
    as Hloop.
  { induction cbs as [|cb cbs IH]; intros s0; cbn.
    - unfold mret, M_ret. rewrite app_nil_r. destruct s0; reflexivity.
    - unfold mbind, M_bind, modify. rewrite IH.
      destruct s0; cbn. rewrite <- app_assoc. reflexivity. }
  apply Hloop.
Qed.

Lemma for_each_run_if_MockNotify (ts : list task) (s : MockDeviceInstance) :
  for_each run_if_MockNotify ts s =
    Ret tt (set_delivered (delivered s ++ deliveries_of (callbacks s) ts) s).
Proof.
  revert s. induction ts as [|t ts IH]; intros s; cbn.
  - unfold mret, M_ret. rewrite app_nil_r. destruct s; reflexivity.
  - unfold mbind, M_bind. destruct t as [r | n]; cbn.
    + apply IH.
    + rewrite run_MockNotify_eq, IH. destruct s; cbn. rewrite <- app_assoc. reflexivity.
Qed.

(** Dispatch always ends; it removes the notification tasks and calls
    every registered observer once per notification, oldest first. *)
Lemma dispatch_all_eq (s : MockDeviceInstance) :
  dispatch_all s =
    Ret tt (set_delivered (delivered s ++ deliveries_of (callbacks s) (tasks s))
              (set_tasks (filter is_MockDataAcq (tasks s)) s)).
Proof.
  unfold dispatch_all, gets, modify, mbind, M_bind.
  rewrite for_each_run_if_MockNotify. destruct s; reflexivity.
Qed.

Lemma deliveries_of_app (cbs : list EventCallback) (ts ts' : list task) :
  deliveries_of cbs (ts ++ ts') = deliveries_of cbs ts ++ deliveries_of cbs ts'.
Proof. unfold deliveries_of. apply flat_map_app. Qed.

Lemma deliveries_of_one (cbs : list EventCallback) (n : EventNotification) :
  deliveries_of cbs [MockNotify n] = map (fun callback => (callback, n)) cbs.
Proof. cbn. apply app_nil_r. Qed.

(** What one more notification task adds to the observer calls. *)
Lemma dispatch_all_one_more (s s' : MockDeviceInstance) (n : EventNotification) :
  tasks s' = tasks s ++ [MockNotify n] ->
  callbacks s' = callbacks s -> delivered s' = delivered s ->
  exists d d', dispatch_all s = Ret tt d /\ dispatch_all s' = Ret tt d' /\
    delivered d' = delivered d ++ map (fun callback => (callback, n)) (callbacks s).
Proof.
  intros Ht Hc Hd. eexists _, _. rewrite !dispatch_all_eq. repeat split.
  rewrite Ht, Hc, Hd, deliveries_of_app, deliveries_of_one.
  destruct s, s'; cbn. apply app_assoc.
Qed.

(** ** [setEventNotification] by range of its argument *)

Lemma setEventNotification_too_large (eventType : EventType) (enable : bool)
    (s : MockDeviceInstance) :
  5 <= eventType -> setEventNotification eventType enable s = Ret INVALID_PARAMETER s.
Proof.
  intros H. unfold setEventNotification.
  destruct (Z.leb_spec 5 eventType); [reflexivity | lia].
Qed.

Lemma setEventNotification_in_range (eventType : EventType) (enable : bool)
    (s : MockDeviceInstance) :
  in_bounds eventType = true ->
  exists flags, array_set (eventsEnabled s) eventType enable = Some flags /\
    setEventNotification eventType enable s = Ret SUCCESS (set_eventsEnabled flags s) /\
    array_get flags eventType = Some enable.
Proof.
  intros H. destruct (array_set_in_bounds (eventsEnabled s) eventType enable H)
    as (flags & Hset & Hget & _).
  exists flags. repeat split; [exact Hset | | exact Hget].
  apply in_bounds_range in H. unfold setEventNotification.
  destruct (Z.leb_spec 5 eventType); [lia|].
  unfold mbind, M_bind, gets, modify. rewrite Hset. reflexivity.
Qed.

(** Below zero the check passes and the write is outside the array. *)
Lemma setEventNotification_negative (eventType : EventType) (enable : bool)
    (s : MockDeviceInstance) :
  eventType < 0 -> setEventNotification eventType enable s = Undefined.
Proof.
  intros H. unfold setEventNotification.
  destruct (Z.leb_spec 5 eventType); [lia|].
  unfold mbind, M_bind, gets.
  rewrite array_set_out_of_bounds; [reflexivity|].
  unfold in_bounds. destruct (Z.leb_spec 0 eventType); [lia | reflexivity].
Qed.

(** C4. On an initialized device, after [injectError(E)] the next
    [requestData] fails and clears the latch.  When the error-occurred
    event is enabled it creates exactly one notification task, carrying
    [ERROR_OCCURRED] and [E], and dispatching it calls every registered
    observer exactly once more with that notification; when the event is
    disabled no task is created.  The [requestData] right after the
    failed one succeeds (the interface mutex being free). *)
Theorem injected_error_fails_next_request (s : MockDeviceInstance) (E : ErrorCode) :
  initialized s = true -> mutexInterface s = false ->
  exists s1 s2 s3,
    injectError E s = Ret tt s1 /\
    requestData s1 = Ret false s2 /\
    shouldFailNext s2 = false /\
    (event_enabled s ERROR_OCCURRED = true ->
     tasks s2 = tasks s ++ [MockNotify (mkEventNotification ERROR_OCCURRED E 0)] /\
     exists d d2,
       dispatch_all s = Ret tt d /\ dispatch_all s2 = Ret tt d2 /\
       delivered d2 = delivered d ++
         map (fun callback => (callback, mkEventNotification ERROR_OCCURRED E 0)) (callbacks s)) /\
    (event_enabled s ERROR_OCCURRED = false -> tasks s2 = tasks s) /\
    requestData s2 = Ret true s3.
Proof.
  intros Hi Hm.
  pose (s1 := set_shouldFailNext true (set_nextError E s)).
  assert (initialized s1 = true /\ shouldFailNext s1 = true /\ nextError s1 = E /\
          eventsEnabled s1 = eventsEnabled s)
    as (Hi1 & Hf1 & He1 & Hen1) by (subst s1; destruct s; cbn in *; auto).
  pose (s2 := if event_enabled s ERROR_OCCURRED
              then set_tasks (tasks s ++ [MockNotify (mkEventNotification ERROR_OCCURRED E 0)])
                     (set_shouldFailNext false s1)
              else set_shouldFailNext false s1).
  assert (requestData s1 = Ret false s2) as E2.
  { rewrite (requestData_injected s1 Hi1 Hf1). unfold mbind, M_bind.
    rewrite notifyEvent_eq, He1. subst s2. unfold event_enabled. rewrite <- Hen1.
    subst s1. destruct s; cbn. split_flags eventsEnabled0. cbn. destruct e2; reflexivity. }
  assert (initialized s2 = true /\ shouldFailNext s2 = false /\ mutexInterface s2 = false /\
          callbacks s2 = callbacks s /\ delivered s2 = delivered s)
    as (Hi2 & Hf2 & Hm2 & Hc2 & Hd2)
    by (subst s2 s1; destruct (event_enabled s ERROR_OCCURRED); destruct s; cbn in *; auto).
  destruct (requestData_started s2 Hi2 Hf2 Hm2) as (s3 & E3 & _).
  exists s1, s2, s3.
  split; [reflexivity|]. split; [exact E2|]. split; [exact Hf2|].
  split; [|split; [|exact E3]].
  - intros Hen. split.
    + subst s2. rewrite Hen. destruct s; reflexivity.
    + apply dispatch_all_one_more; [|assumption|assumption].
      subst s2. rewrite Hen. destruct s; reflexivity.
  - intros Hen. subst s2. rewrite Hen. destruct s; reflexivity.
Qed.

(** C6. For each of the five event types [X]: [setEventNotification(X,
    false)] succeeds, and triggering [X] after it creates no notification
    task and changes nothing, so no observer is called for it; after
    [setEventNotification(X, true)], one trigger of [X] creates exactly
    one notification task of type [X], and dispatching it calls every
    registered observer exactly once more, with that notification. *)
Theorem event_gating (s : MockDeviceInstance) (X : EventType)
    (error : ErrorCode) (customData : Z) :
  in_bounds X = true ->
  exists s_off s_on s_trig,
    setEventNotification X false s = Ret SUCCESS s_off /\
    notifyEvent X error customData s_off = Ret tt s_off /\
    setEventNotification X true s_off = Ret SUCCESS s_on /\
    notifyEvent X error customData s_on = Ret tt s_trig /\
    tasks s_trig = tasks s_on ++ [MockNotify (mkEventNotification X error customData)] /\
    exists d d',
      dispatch_all s_on = Ret tt d /\ dispatch_all s_trig = Ret tt d' /\
      delivered d' = delivered d ++
        map (fun callback => (callback, mkEventNotification X error customData)) (callbacks s).
Proof.
  intros HX.
  destruct (setEventNotification_in_range X false s HX) as (f_off & _ & E_off & G_off).
  destruct (setEventNotification_in_range X true (set_eventsEnabled f_off s) HX)
    as (f_on & _ & E_on & G_on).
  set (s_off := set_eventsEnabled f_off s) in *.
  set (s_on := set_eventsEnabled f_on s_off) in *.
  set (s_trig := set_tasks (tasks s_on ++ [MockNotify (mkEventNotification X error customData)]) s_on).
  assert (eventsEnabled s_off = f_off) as Hoff by (subst s_off; destruct s; reflexivity).
  assert (eventsEnabled s_on = f_on) as Hon by (subst s_on; destruct s_off; reflexivity).
  exists s_off, s_on, s_trig. repeat split; try assumption.
  - rewrite notifyEvent_eq, Hoff, G_off. reflexivity.
  - rewrite notifyEvent_eq, Hon, G_on. reflexivity.
  - subst s_trig. destruct s_on; reflexivity.
  - replace (callbacks s) with (callbacks s_on)
      by (subst s_on s_off; destruct s; reflexivity).
    apply dispatch_all_one_more; subst s_trig; destruct s_on; reflexivity.
Qed.

(** ** [initialize] *)

(** With the instance mutex free, [initialize] returns, and what it does
    beyond setting the flag is a matter of bits and tasks. *)
Lemma initialize_free (s : MockDeviceInstance) :
  mutexInstance s = false ->
  exists s', initialize s = Ret tt s' /\ sched_step (set_initialized true s) s'.
Proof.
  intros H. destruct s; cbn in *; subst. mock_simpl.
  destruct (0 <? initDelay0)%N; cbn.
  - match goal with
    | |- context [vTaskDelay ?n ?st] =>
        destruct (vTaskDelay_returns n st) as (s1 & -> & (g & ts & ->))
    end.
    cbn. split_flags eventsEnabled0. destruct e0; cbn;
      (eexists; split; [reflexivity|]; eexists _, _; reflexivity).
  - split_flags eventsEnabled0. destruct e0; cbn;
      (eexists; split; [reflexivity|]; eexists _, _; reflexivity).
Qed.

(** Every call of [initialize], on an initialized device too, raises
    the initialization event when it is enabled. *)
Lemma initialize_raises_event (s : MockDeviceInstance) :
  mutexInstance s = false -> event_enabled s INITIALIZED = true ->
  exists s' ts, initialize s = Ret tt s' /\
    tasks s' = ts ++ [MockNotify (mkEventNotification INITIALIZED SUCCESS 0)].
Proof.
  intros H Hen. destruct s; cbn in *; subst. unfold event_enabled in Hen. cbn in Hen.
  split_flags eventsEnabled0. cbn in Hen. destruct e0; [|discriminate Hen].
  mock_simpl. destruct (0 <? initDelay0)%N; cbn.
  - match goal with
    | |- context [vTaskDelay ?n ?st] =>
        destruct (vTaskDelay_returns n st) as (s1 & -> & (g & ts & ->))
    end.
    cbn. eexists _, _. split; reflexivity.
  - eexists _, _. split; reflexivity.
Qed.

(** The part of the initialization contract the mock keeps: the flag is
    set by one call and stays set under any number of further calls. *)
Lemma initialize_sets_flag (n : nat) (s : MockDeviceInstance) :
  mutexInstance s = false ->
  exists s', for_each (fun _ : unit => initialize) (repeat tt (S n)) s = Ret tt s' /\
             mutexInstance s' = false /\ initialized s' = true.
Proof.
  revert s. induction n as [|n IH]; intros s H.
  - destruct (initialize_free s H) as (s' & E & Hstep).
    apply sched_step_frame in Hstep. exists s'. cbn. unfold mbind, M_bind. rewrite E.
    split; [reflexivity|]. destruct s; cbn in *; intuition congruence.
  - destruct (initialize_free s H) as (s1 & E & Hstep).
    apply sched_step_frame in Hstep.
    assert (mutexInstance s1 = false) as H1 by (destruct s; cbn in *; intuition congruence).
    destruct (IH s1 H1) as (s' & E' & Hm & Hi).
    exists s'. split; [|auto].
    change (repeat tt (S (S n))) with (tt :: repeat tt (S n)).
    cbn [for_each]. unfold mbind at 1, M_bind at 1. rewrite E. exact E'.
Qed.

(** ** What the calls other than [processData] leave *)

Lemma then_ret_inv {A : Type} (m : M A) (s s' : MockDeviceInstance) :
  (m;; mret tt) s = Ret tt s' -> exists a, m s = Ret a s'.
Proof.
  unfold mbind, M_bind, mret, M_ret. destruct (m s) as [a s1| |]; try discriminate.
  intros E. inversion E. eauto.
Qed.

Lemma waitForInitialization_sched_step (xTicksToWait : TickType_t) (r : ErrorCode)
    (s s' : MockDeviceInstance) :
  waitForInitialization xTicksToWait s = Ret r s' -> sched_step s s'.
Proof.
  unfold waitForInitialization, mbind, M_bind, mret, M_ret.
  pose proof (xEventGroupWaitBits_no_clear INIT_COMPLETE_BIT true xTicksToWait s) as H.
  destruct (xEventGroupWaitBits _ false true xTicksToWait s) as [bits s1| |]; try discriminate.
  intros E. inversion E; subst. apply H.
Qed.

Lemma waitForData_forever_sched_step (r : bool) (s s' : MockDeviceInstance) :
  waitForData_forever s = Ret r s' -> sched_step s s'.
Proof.
  unfold waitForData_forever, mbind, M_bind, mret, M_ret.
  pose proof (xEventGroupWaitBits_no_clear (Z.lor DATA_READY_BIT ERROR_BIT) false portMAX_DELAY s) as H.
  destruct (xEventGroupWaitBits _ false false portMAX_DELAY s) as [bits s1| |]; try discriminate.
  intros E. inversion E; subst. apply H.
Qed.

(** [requestData] never sets [dataProcessed] and returns the instance
    mutex as it found it. *)
Lemma requestData_keeps_unprocessed (b : bool) (s s' : MockDeviceInstance) :
  requestData s = Ret b s' ->
  mutexInstance s' = mutexInstance s /\
  (dataProcessed s' = dataProcessed s \/ dataProcessed s' = false).
Proof.
  destruct b.
  - destruct (initialized s) eqn:Hi;
      [|rewrite (requestData_not_initialized s Hi); discriminate].
    destruct (shouldFailNext s) eqn:Hf.
    { rewrite (requestData_injected s Hi Hf). unfold mbind, M_bind, mret, M_ret.
      destruct (notifyEvent _ _ _ _); discriminate. }
    destruct (mutexInterface s) eqn:Hm.
    { destruct s; cbn in *; subst. discriminate. }
    destruct (requestData_started s Hi Hf Hm) as (s1 & -> & Hstep).
    intros E. inversion E; subst. apply sched_step_frame in Hstep.
    destruct s; cbn in *. intuition congruence.
  - intros H. destruct (requestData_failed_state s s' H) as [-> | [-> | ->]];
      destruct s; cbn; auto.
Qed.

Lemma performAction_keeps (actionId actionParam : Z) (r : ErrorCode)
    (s s' : MockDeviceInstance) :
  mutexInstance s = false ->
  performAction actionId actionParam s = Ret r s' ->
  mutexInstance s' = false /\ dataProcessed s' = dataProcessed s.
Proof.
  intros Hm. destruct s; cbn in *; subst. mock_simpl.
  destruct initialized0; cbn; [|intros E; inversion E; auto].
  split_flags eventsEnabled0. destruct e3; cbn; intros E; inversion E; auto.
Qed.

Lemma setEventNotification_keeps (eventType : EventType) (enable : bool) (r : ErrorCode)
    (s s' : MockDeviceInstance) :
  setEventNotification eventType enable s = Ret r s' ->
  mutexInstance s' = mutexInstance s /\ dataProcessed s' = dataProcessed s.
Proof.
  unfold setEventNotification, mbind, M_bind, gets, modify, mret, M_ret, undefined_behaviour.
  destruct (5 <=? eventType); [intros E; inversion E; auto|].
  destruct (array_set (eventsEnabled s) eventType enable); [|discriminate].
  intros E; inversion E. destruct s; auto.
Qed.

(** No call but [processData] sets [dataProcessed], and every call that
    returns has released the instance mutex. *)
Lemma exec_keeps_unprocessed (c : call) (s s' : MockDeviceInstance) :
  is_processData c = false -> exec c s = Ret tt s' ->
  mutexInstance s = false -> dataProcessed s = false ->
  mutexInstance s' = false /\ dataProcessed s' = false.
Proof.
  intros Hc E Hm Hp.
  assert (forall s0, sched_step s0 s' -> mutexInstance s0 = false -> dataProcessed s0 = false ->
                     mutexInstance s' = false /\ dataProcessed s' = false) as Hsched.
  { intros s0 Hstep H1 H2. apply sched_step_frame in Hstep. intuition congruence. }
  destruct c; cbn in Hc; try discriminate Hc; cbn [exec] in E.
  - destruct (initialize_free s Hm) as (s1 & E1 & Hstep).
    rewrite E1 in E. inversion E; subst.
    apply (Hsched _ Hstep); destruct s; assumption.
  - apply then_ret_inv in E as [a E]. inversion E; subst. auto.
  - apply then_ret_inv in E as [a E].
    apply waitForInitialization_sched_step in E. eauto.
  - apply then_ret_inv in E as [a E].
    apply requestData_keeps_unprocessed in E. intuition congruence.
  - apply then_ret_inv in E as [a E].
    apply waitForData_forever_sched_step in E. eauto.
  - apply then_ret_inv in E as [a E].
    apply waitForData_sched_step in E. eauto.
  - apply then_ret_inv in E as [a E].
    rewrite (getData_free _ s Hm) in E. inversion E; subst. auto.
  - apply then_ret_inv in E as [a E].
    apply (performAction_keeps _ _ _ _ _ Hm) in E. intuition congruence.
  - apply then_ret_inv in E as [a E].
    destruct s; cbn in *; subst. inversion E; subst. auto.
  - apply then_ret_inv in E as [a E].
    destruct s; cbn in *; subst. inversion E; subst. auto.
  - apply then_ret_inv in E as [a E].
    apply setEventNotification_keeps in E. intuition congruence.
  - rewrite (setTestData_free _ _ s Hm) in E. inversion E; subst. destruct s; auto.
  - destruct s; cbn in *; subst. inversion E; subst. auto.
  - apply then_ret_inv in E as [a E]. inversion E; subst. auto.
  - destruct s; cbn in *; subst. inversion E; subst. auto.
  - apply then_ret_inv in E as [a E]. inversion E; subst. auto.
  - destruct (tick_returns s) as (s1 & E1 & Hstep).
    rewrite E1 in E. inversion E; subst. eauto.
  - rewrite dispatch_all_eq in E. inversion E; subst. destruct s; auto.
Qed.

Lemma run_keeps_unprocessed (cs : list call) (s s' : MockDeviceInstance) :
  forallb (fun c => negb (is_processData c)) cs = true -> run cs s = Ret tt s' ->
  mutexInstance s = false -> dataProcessed s = false ->
  mutexInstance s' = false /\ dataProcessed s' = false.
Proof.
  revert s. induction cs as [|c cs IH]; intros s Hcs E Hm Hp.
  - inversion E; subst. auto.
  - cbn in Hcs. apply andb_true_iff in Hcs as [Hc Hcs]. apply negb_true_iff in Hc.
    unfold run in E. cbn [for_each] in E. unfold mbind at 1, M_bind at 1 in E.
    destruct (exec c s) as [[] s1| |] eqn:E1; try discriminate.
    destruct (exec_keeps_unprocessed c s s1 Hc E1 Hm Hp) as [Hm1 Hp1].
    exact (IH s1 Hcs E Hm1 Hp1).
Qed.

(** C2. After a [requestData] that succeeded, and whatever is called
    next (any public method or test helper, clock ticks, dispatches) as
    long as it is not [processData], [getData(T)] returns, for every data
    type [T], the failure value: [success] false and no values.  So it
    never returns samples, those retrievable in an earlier cycle
    included. *)
Theorem getData_before_processData (s s1 s2 : MockDeviceInstance) (cs : list call)
    (T : DeviceDataType) :
  mutexInstance s = false ->
  requestData s = Ret true s1 ->
  forallb (fun c => negb (is_processData c)) cs = true ->
  run cs s1 = Ret tt s2 ->
  getData T s2 = Ret (mkDataResult false []) s2.
Proof.
  intros Hm E Hcs Hrun.
  assert (mutexInstance s1 = false /\ dataProcessed s1 = false) as [Hm1 Hp1].
  { destruct (initialized s) eqn:Hi;
      [|rewrite (requestData_not_initialized s Hi) in E; discriminate].
    destruct (shouldFailNext s) eqn:Hf.
    { rewrite (requestData_injected s Hi Hf) in E. unfold mbind, M_bind, mret, M_ret in E.
      destruct (notifyEvent _ _ _ _); discriminate. }
    destruct (mutexInterface s) eqn:Hmi.
    { destruct s; cbn in *; subst. discriminate. }
    destruct (requestData_started s Hi Hf Hmi) as (s' & E' & Hstep).
    rewrite E' in E. inversion E; subst. apply sched_step_frame in Hstep.
    destruct s; cbn in *. intuition congruence. }
  destruct (run_keeps_unprocessed cs s1 s2 Hcs Hrun Hm1 Hp1) as [Hm2 Hp2].
  rewrite (getData_free T s2 Hm2), Hp2, andb_false_r. reflexivity.
Qed.

Lemma getData_before_processData_witness :
  mutexInstance cycled = false /\
  getData TEMPERATURE cycled = Ret (mkDataResult true samples) cycled /\
  requestData cycled = Ret true (state_after requestData cycled) /\
  getData TEMPERATURE
    (state_after (run [call_waitForData 50%N; call_getData HUMIDITY; call_injectError TIMEOUT])
       (state_after requestData cycled))
  = Ret (mkDataResult false [])
      (state_after (run [call_waitForData 50%N; call_getData HUMIDITY; call_injectError TIMEOUT])
         (state_after requestData cycled)).
Proof.
  split; [reflexivity|]. split; [vm_compute; reflexivity|].
  assert (requestData cycled = Ret true (state_after requestData cycled)) as E
    by (vm_compute; reflexivity).
  split; [exact E|].
  apply (getData_before_processData cycled (state_after requestData cycled) _
           [call_waitForData 50%N; call_getData HUMIDITY; call_injectError TIMEOUT]);
    [reflexivity | exact E | reflexivity | vm_compute; reflexivity].
Defined.

Lemma injected_error_fails_next_request_witness :
  initialized observed = true /\ mutexInterface observed = false /\
  exists s1 s2 d2,
    injectError COMMUNICATION_ERROR observed = Ret tt s1 /\
    requestData s1 = Ret false s2 /\
    dispatch_all s2 = Ret tt d2 /\
    delivered d2 = delivered observed ++
      [(1%nat, mkEventNotification ERROR_OCCURRED COMMUNICATION_ERROR 0)].
Proof.
  split; [reflexivity|]. split; [reflexivity|].
  destruct (injected_error_fails_next_request observed COMMUNICATION_ERROR eq_refl eq_refl)
    as (s1 & s2 & s3 & E1 & E2 & _ & Hen & _ & _).
  destruct (Hen eq_refl) as (_ & d & d2 & D1 & D2 & Hd).
  exists s1, s2, d2. repeat (split; [assumption|]).
  rewrite Hd. vm_compute in D1. injection D1 as <-. reflexivity.
Defined.

Lemma event_gating_witness :
  in_bounds DATA_READY = true /\
  exists s_off s_on s_trig d',
    setEventNotification DATA_READY false observed = Ret SUCCESS s_off /\
    notifyEvent DATA_READY SUCCESS 0 s_off = Ret tt s_off /\
    setEventNotification DATA_READY true s_off = Ret SUCCESS s_on /\
    notifyEvent DATA_READY SUCCESS 0 s_on = Ret tt s_trig /\
    dispatch_all s_trig = Ret tt d' /\
    delivered d' = delivered observed ++ [(1%nat, mkEventNotification DATA_READY SUCCESS 0)].
Proof.
  split; [reflexivity|].
  destruct (event_gating observed DATA_READY SUCCESS 0 eq_refl)
    as (s_off & s_on & s_trig & E1 & E2 & E3 & E4 & _ & d & d' & D1 & D2 & Hd).
  exists s_off, s_on, s_trig, d'. repeat (split; [assumption|]).
  rewrite Hd.
  vm_compute in E1. injection E1 as <-.
  vm_compute in E3. injection E3 as <-.
  vm_compute in D1. injection D1 as <-. reflexivity.
Defined.

(** C5 (the part the mock does not keep).  On the fixture with one
    observer, already initialized and with the first notification
    delivered, [isInitialized] answers true before and after a second
    [initialize], but that second call is not a no-op: it raises the
    initialization event again and the observer is called a second
    time. *)
Theorem initialize_again_notifies_again :
  isInitialized observed = Ret true observed /\
  delivered observed = [(1%nat, mkEventNotification INITIALIZED SUCCESS 0)] /\
  exists s',
    (initialize;; dispatch_all) observed = Ret tt s' /\
    isInitialized s' = Ret true s' /\
    delivered s' = [(1%nat, mkEventNotification INITIALIZED SUCCESS 0);
                    (1%nat, mkEventNotification INITIALIZED SUCCESS 0)].
Proof.
  split; [reflexivity|]. split; [reflexivity|].
  eexists. split; [vm_compute; reflexivity|]. split; reflexivity.
Qed.

(** C7 (the case the check misses).  [-1] is a value an [EventType] can
    carry, and the validator of data types, [isValidDataType], turns it
    down; [setEventNotification] does not: [-1 >= 5] is false, so the
    call goes on to write [eventsEnabled[-1]], outside the array, instead
    of returning [INVALID_PARAMETER].  With 5 it is rejected. *)
Theorem setEventNotification_minus_one_not_rejected (s : MockDeviceInstance) (enable : bool) :
  is_int (-1) /\
  isValidDataType (-1) = false /\
  setEventNotification (-1) enable s = Undefined /\
  setEventNotification (-1) enable s <> Ret INVALID_PARAMETER s /\
  setEventNotification 5 enable s = Ret INVALID_PARAMETER s.
Proof.
  assert (setEventNotification (-1) enable s = Undefined) as E
    by (apply setEventNotification_negative; lia).
  split; [unfold is_int, INT_MIN, INT_MAX; lia|]. split; [reflexivity|].
  split; [exact E|]. split; [rewrite E; discriminate|].
  apply setEventNotification_too_large. lia.
Qed.

(** C9 (the access that is out of bounds).  The event types
    [notifyEvent] is called with index [eventsEnabled] inside [0, 5), but
    a negative event type does reach the array access of
    [setEventNotification]: with [INT_MIN], the least value an
    [EventType] can carry, the index is outside the array and the write
    is the undefined one. *)
Theorem eventsEnabled_index_below_zero (s : MockDeviceInstance) (enable : bool) :
  in_bounds INITIALIZED = true /\ in_bounds DATA_READY = true /\
  in_bounds ERROR_OCCURRED = true /\ in_bounds STATE_CHANGED = true /\
  is_int INT_MIN /\
  in_bounds INT_MIN = false /\
  array_set (eventsEnabled s) INT_MIN enable = None /\
  setEventNotification INT_MIN enable s = Undefined.
Proof.
  repeat (split; [reflexivity|]).
  split; [unfold is_int, INT_MIN, INT_MAX; lia|]. split; [reflexivity|].
  split; [apply array_set_out_of_bounds; reflexivity|].
  apply setEventNotification_negative. unfold INT_MIN. lia.
Qed.

(** * More of the mock

    Properties of the code the claims leave out, and of how the methods
    compose. *)

#[local] Arguments Z.testbit : simpl never.
#[local] Arguments Z.eqb : simpl nomatch.

(** ** One tick, in closed form *)

Lemma lor_DATA_READY_BIT_idem (g : EventBits_t) :
  Z.lor (Z.lor g DATA_READY_BIT) DATA_READY_BIT = Z.lor g DATA_READY_BIT.
Proof. rewrite <- Z.lor_assoc, Z.lor_diag. reflexivity. Qed.

Lemma for_each_tick_task_eq (ts : list task) (s : MockDeviceInstance) :
  for_each tick_task ts s =
    Ret tt (set_tasks (tasks s ++ flat_map (ticked_task (event_enabled s DATA_READY)) ts)
              (set_eventGroup (if existsb due ts then Z.lor (eventGroup s) DATA_READY_BIT
                               else eventGroup s) s)).
Proof.
  revert s. induction ts as [|t ts IH]; intros s.
  - cbn. rewrite app_nil_r. destruct s; reflexivity.
  - cbn [for_each flat_map existsb]. unfold mbind at 1, M_bind at 1.
    destruct t as [r | n]; cbn [tick_task due ticked_task orb].
    + destruct (N.leb_spec r 1); cbn [orb].
      * unfold mbind, M_bind, xEventGroupSetBits, modify. rewrite notifyEvent_eq.
        destruct s; unfold event_enabled; cbn. split_flags eventsEnabled0. cbn.
        destruct e1; cbn; rewrite IH; unfold event_enabled; cbn;
          rewrite lor_DATA_READY_BIT_idem; rewrite <- ?app_assoc;
          destruct (existsb due ts); reflexivity.
      * unfold xTaskCreate, modify. rewrite IH.
        destruct s; unfold event_enabled; cbn. rewrite <- app_assoc. reflexivity.
    + unfold xTaskCreate, modify. rewrite IH.
      destruct s; unfold event_enabled; cbn. rewrite <- app_assoc. reflexivity.
Qed.

(** A tick ages every task, sets the data-ready bit when an acquisition
    ends, and touches nothing else. *)
Lemma tick_eq (s : MockDeviceInstance) :
  tick s =
    Ret tt (set_tasks (flat_map (ticked_task (event_enabled s DATA_READY)) (tasks s))
              (set_eventGroup (if existsb due (tasks s)
                               then Z.lor (eventGroup s) DATA_READY_BIT
                               else eventGroup s) s)).
Proof.
  unfold tick, gets, modify, mbind, M_bind. rewrite for_each_tick_task_eq.
  destruct s; reflexivity.
Qed.

Lemma testbit_lor_DATA_READY_BIT (g : EventBits_t) (i : Z) :
  Z.testbit (Z.lor g DATA_READY_BIT) i = Z.testbit g i || (i =? 1).
Proof.
  rewrite Z.lor_spec. f_equal.
  destruct (Z.eqb_spec i 1) as [-> | Hi]; [reflexivity|].
  destruct (Z.neg_nonneg_cases i) as [Hneg | Hpos]; [apply Z.testbit_neg_r, Hneg|].
  change DATA_READY_BIT with (2 ^ 1). rewrite Z.pow2_bits_eqb by lia.
  apply Z.eqb_neq. congruence.
Qed.

Lemma testbit_ldiff_DATA_READY_BIT (g : EventBits_t) (i : Z) :
  Z.testbit (Z.ldiff g DATA_READY_BIT) i = Z.testbit g i && negb (i =? 1).
Proof.
  rewrite Z.ldiff_spec. f_equal. f_equal.
  destruct (Z.eqb_spec i 1) as [-> | Hi]; [reflexivity|].
  destruct (Z.neg_nonneg_cases i) as [Hneg | Hpos]; [apply Z.testbit_neg_r, Hneg|].
  change DATA_READY_BIT with (2 ^ 1). rewrite Z.pow2_bits_eqb by lia.
  apply Z.eqb_neq. congruence.
Qed.

(** A tick never clears a bit and sets none but the data-ready bit. *)
Lemma tick_bits (s s' : MockDeviceInstance) (i : Z) :
  tick s = Ret tt s' ->
  Z.testbit (eventGroup s') i =
    Z.testbit (eventGroup s) i || ((i =? 1) && existsb due (tasks s)).
Proof.
  rewrite tick_eq. intros E. inversion E; subst. destruct s; cbn.
  destruct (existsb due tasks0).
  - rewrite testbit_lor_DATA_READY_BIT, andb_true_r. reflexivity.
  - rewrite andb_false_r, orb_false_r. reflexivity.
Qed.

(** ** How long an acquisition takes *)








(** ** A successful request *)

Lemma requestData_started_eq (s : MockDeviceInstance) :
  initialized s = true -> shouldFailNext s = false -> mutexInterface s = false ->
  requestData s =
    Ret true
      (let s0 := set_eventGroup (Z.ldiff (eventGroup s) DATA_READY_BIT)
                   (set_dataProcessed false (set_dataRequested true s)) in
       if (0 <? dataDelay s)%N
       then set_tasks (tasks s ++ [MockDataAcq (dataDelay s)]) s0
       else
         let s1 := set_eventGroup (Z.lor (Z.ldiff (eventGroup s) DATA_READY_BIT) DATA_READY_BIT) s0 in
         if event_enabled s DATA_READY
         then set_tasks (tasks s ++ [MockNotify (mkEventNotification DATA_READY SUCCESS 0)]) s1
         else s1).
Proof.
  intros Hi Hf Hm. destruct s; unfold event_enabled; cbn in *; subst. mock_simpl.
  destruct (0 <? dataDelay0)%N; cbn; [reflexivity|].
  split_flags eventsEnabled0. cbn. destruct e1; reflexivity.
Qed.

(** What a [requestData] that starts an acquisition changes. *)
Lemma requestData_started_effects (s : MockDeviceInstance) :
  initialized s = true -> shouldFailNext s = false -> mutexInterface s = false ->
  exists s',
    requestData s = Ret true s' /\
    dataRequested s' = true /\ dataProcessed s' = false /\
    Z.testbit (eventGroup s') 1 = (dataDelay s =? 0)%N /\
    (forall i, i <> 1 -> Z.testbit (eventGroup s') i = Z.testbit (eventGroup s) i) /\
    tasks s' = tasks s ++
      (if (0 <? dataDelay s)%N then [MockDataAcq (dataDelay s)]
       else if event_enabled s DATA_READY
            then [MockNotify (mkEventNotification DATA_READY SUCCESS 0)] else []) /\
    mutexInstance s' = mutexInstance s /\ mutexInterface s' = false.
Proof.
  intros Hi Hf Hm. eexists. split; [apply requestData_started_eq; assumption|].
  assert (forall i, i <> 1 -> (i =? 1) = false) as Hne by (intros; apply Z.eqb_neq; assumption).
  destruct (N.ltb_spec 0 (dataDelay s)) as [Hd | Hd].
  - assert ((dataDelay s =? 0)%N = false) as -> by (apply N.eqb_neq; lia).
    destruct s; cbn in *. repeat split; try assumption.
    + rewrite testbit_ldiff_DATA_READY_BIT. apply andb_false_r.
    + intros i Hi1. rewrite testbit_ldiff_DATA_READY_BIT, (Hne i Hi1). apply andb_true_r.
  - assert ((dataDelay s =? 0)%N = true) as -> by (apply N.eqb_eq; lia).
    destruct (event_enabled s DATA_READY); destruct s; cbn in *;
      repeat split; try assumption; try (rewrite app_nil_r; reflexivity);
      try (rewrite testbit_lor_DATA_READY_BIT; apply orb_true_r);
      intros i Hi1;
      rewrite testbit_lor_DATA_READY_BIT, testbit_ldiff_DATA_READY_BIT, (Hne i Hi1);
      rewrite orb_false_r; apply andb_true_r.
Qed.

(** X12. A [requestData] that starts an acquisition sets [dataRequested],
    clears [dataProcessed], and leaves the data-ready bit set exactly
    when the data delay is zero: with a delay, a data-ready bit left by
    an earlier cycle is cleared and one ["MockDataAcq"] task is created.
    No other bit changes and both mutexes are as before. *)
Theorem requestData_success_effects (s : MockDeviceInstance) :
  initialized s = true -> shouldFailNext s = false -> mutexInterface s = false ->
  exists s',
    requestData s = Ret true s' /\
    dataRequested s' = true /\ dataProcessed s' = false /\
    Z.testbit (eventGroup s') 1 = (dataDelay s =? 0)%N /\
    (forall i, i <> 1 -> Z.testbit (eventGroup s') i = Z.testbit (eventGroup s) i) /\
    tasks s' = tasks s ++
      (if (0 <? dataDelay s)%N then [MockDataAcq (dataDelay s)]
       else if event_enabled s DATA_READY
            then [MockNotify (mkEventNotification DATA_READY SUCCESS 0)] else []) /\
    mutexInstance s' = mutexInstance s /\ mutexInterface s' = false.
Proof.
  intros Hi Hf Hm.
  destruct (requestData_started_effects s Hi Hf Hm) as (s' & H).
  exists s'. exact H.
Qed.

Lemma requestData_success_effects_witness :
  initialized cycled = true /\ shouldFailNext cycled = false /\
  mutexInterface cycled = false /\
  Z.testbit (eventGroup cycled) 1 = true /\
  exists s', requestData cycled = Ret true s' /\ Z.testbit (eventGroup s') 1 = false.
Proof.
  repeat (split; [reflexivity|]).
  destruct (requestData_success_effects cycled eq_refl eq_refl eq_refl)
    as (s' & E & _ & _ & Hb & _).
  exists s'. split; [exact E | rewrite Hb; reflexivity].
Defined.









(** ** The two mutexes *)

Lemma requestData_true_inv (s s' : MockDeviceInstance) :
  requestData s = Ret true s' ->
  initialized s = true /\ shouldFailNext s = false /\ mutexInterface s = false.
Proof.
  intros E.
  destruct (initialized s) eqn:Hi;
    [|rewrite (requestData_not_initialized s Hi) in E; discriminate].
  destruct (shouldFailNext s) eqn:Hf.
  { rewrite (requestData_injected s Hi Hf) in E. unfold mbind, M_bind, mret, M_ret in E.
    destruct (notifyEvent _ _ _ _); discriminate. }
  destruct (mutexInterface s) eqn:Hm; [|auto].
  destruct s; cbn in *; subst. discriminate.
Qed.

Lemma requestData_mutexes (b : bool) (s s' : MockDeviceInstance) :
  requestData s = Ret b s' ->
  mutexInstance s' = mutexInstance s /\ mutexInterface s' = mutexInterface s.
Proof.
  destruct b; intros E.
  - destruct (requestData_true_inv s s' E) as (Hi & Hf & Hm).
    destruct (requestData_started_effects s Hi Hf Hm) as (s1 & E1 & _ & _ & _ & _ & _ & H1 & H2).
    rewrite E1 in E. inversion E; subst. split; congruence.
  - destruct (requestData_failed_state s s' E) as [-> | [-> | ->]]; destruct s; auto.
Qed.

Lemma performAction_mutexes (actionId actionParam : Z) (r : ErrorCode)
    (s s' : MockDeviceInstance) :
  performAction actionId actionParam s = Ret r s' ->
  mutexInstance s' = mutexInstance s /\ mutexInterface s' = mutexInterface s.
Proof.
  destruct s; cbn. mock_simpl.
  destruct initialized0; cbn; [|intros E; inversion E; auto].
  destruct mutexInstance0; cbn; [discriminate|].
  split_flags eventsEnabled0. destruct e3; cbn; intros E; inversion E; auto.
Qed.

Lemma setEventNotification_mutexes (eventType : EventType) (enable : bool) (r : ErrorCode)
    (s s' : MockDeviceInstance) :
  setEventNotification eventType enable s = Ret r s' ->
  mutexInstance s' = mutexInstance s /\ mutexInterface s' = mutexInterface s.
Proof.
  unfold setEventNotification, mbind, M_bind, gets, modify, mret, M_ret, undefined_behaviour.
  destruct (5 <=? eventType); [intros E; inversion E; auto|].
  destruct (array_set (eventsEnabled s) eventType enable); [|discriminate].
  intros E; inversion E. destruct s; auto.
Qed.

(** X1. Every call that returns has released what it took: after any
    public method or test helper, a clock tick or a dispatch, both
    mutexes are in the state the call found them in, on the failure
    exits as on the others. *)
Theorem calls_release_mutexes (c : call) (s s' : MockDeviceInstance) :
  exec c s = Ret tt s' ->
  mutexInstance s' = mutexInstance s /\ mutexInterface s' = mutexInterface s.
Proof.
  intros E.
  assert (forall s0, sched_step s0 s' ->
            mutexInstance s' = mutexInstance s0 /\ mutexInterface s' = mutexInterface s0)
    as Hsched by (intros s0 Hstep; apply sched_step_frame in Hstep; intuition congruence).
  destruct c; cbn [exec] in E;
    try (apply then_ret_inv in E as [a E]).
  - destruct (mutexInstance s) eqn:Hm.
    + destruct s; cbn in *; subst. discriminate.
    + destruct (initialize_free s Hm) as (s1 & E1 & Hstep). rewrite E1 in E.
      inversion E; subst. destruct (Hsched _ Hstep) as [-> ->]. destruct s; auto.
  - inversion E; subst. auto.
  - apply waitForInitialization_sched_step in E. auto.
  - eapply requestData_mutexes, E.
  - apply waitForData_forever_sched_step in E. auto.
  - apply waitForData_sched_step in E. auto.
  - destruct (mutexInstance s) eqn:Hm.
    + destruct s; cbn in *; subst. discriminate.
    + rewrite (processData_free s Hm) in E. inversion E; subst. destruct s; auto.
  - destruct (mutexInstance s) eqn:Hm.
    + destruct s; cbn in *; subst. discriminate.
    + rewrite (getData_free _ s Hm) in E. inversion E; subst. auto.
  - eapply performAction_mutexes, E.
  - destruct s; cbn in *. destruct mutexInstance0; [discriminate|]. inversion E; auto.
  - destruct s; cbn in *. destruct mutexInstance0; [discriminate|]. inversion E; auto.
  - eapply setEventNotification_mutexes, E.
  - destruct (mutexInstance s) eqn:Hm.
    + destruct s; cbn in *; subst. discriminate.
    + rewrite (setTestData_free _ _ s Hm) in E. inversion E; subst. destruct s; auto.
  - destruct s; cbn in *. inversion E; auto.
  - inversion E; subst. auto.
  - destruct s; cbn in *. destruct mutexInstance0; [discriminate|]. inversion E; auto.
  - inversion E; subst. auto.
  - destruct (tick_returns s) as (s1 & E1 & Hstep). rewrite E1 in E. inversion E; subst. auto.
  - rewrite dispatch_all_eq in E. inversion E; subst. destruct s; auto.
Qed.

Lemma calls_release_mutexes_witness :
  exec (call_performAction 1 100) ready
    = Ret tt (state_after (exec (call_performAction 1 100)) ready) /\
  mutexInstance (state_after (exec (call_performAction 1 100)) ready) = mutexInstance ready /\
  mutexInterface (state_after (exec (call_performAction 1 100)) ready) = mutexInterface ready.
Proof.
  assert (exec (call_performAction 1 100) ready
          = Ret tt (state_after (exec (call_performAction 1 100)) ready)) as E
    by (vm_compute; reflexivity).
  split; [exact E|].
  exact (calls_release_mutexes (call_performAction 1 100) ready _ E).
Defined.

Lemma performAction_initialized (actionId actionParam : Z) (s : MockDeviceInstance) :
  initialized s = true -> mutexInstance s = false ->
  performAction actionId actionParam s =
    Ret SUCCESS
      (let s0 := set_performedActions (performedActions s ++ [(actionId, actionParam)]) s in
       if event_enabled s STATE_CHANGED
       then set_tasks (tasks s ++ [MockNotify (mkEventNotification STATE_CHANGED SUCCESS actionId)]) s0
       else s0).
Proof.
  intros Hi Hm. destruct s; unfold event_enabled; cbn in *; subst. mock_simpl.
  split_flags eventsEnabled0. cbn. destruct e3; reflexivity.
Qed.

(** X2. With both mutexes free, every call returns, except the waits
    without a bound ([waitForData()], and the two timed waits with
    [portMAX_DELAY]) and [setEventNotification] with a negative event
    type: no other call blocks or has undefined behaviour, whatever the
    state of the device and the arguments. *)
Theorem calls_return_when_mutexes_free (c : call) (s : MockDeviceInstance) :
  mutexInstance s = false -> mutexInterface s = false ->
  returns_promptly c = true ->
  exists s', exec c s = Ret tt s'.
Proof.
  intros Hm Hmi Hc.
  assert (forall (A : Type) (m : M A) a s', m s = Ret a s' ->
            exists s'', (m;; mret tt) s = Ret tt s'') as Hthen
    by (intros A m a s' E; exists s'; unfold mbind, M_bind; rewrite E; reflexivity).
  destruct c; cbn [exec]; cbn in Hc; try discriminate Hc.
  - destruct (initialize_free s Hm) as (s' & E & _). eauto.
  - eapply Hthen. reflexivity.
  - apply negb_true_iff, N.eqb_neq in Hc.
    pose proof (xEventGroupWaitBits_no_clear INIT_COMPLETE_BIT true xTicksToWait s) as H.
    unfold waitForInitialization, mbind, M_bind.
    destruct (xEventGroupWaitBits _ false true xTicksToWait s) as [bits s'| |];
      [eexists; reflexivity | destruct H; contradiction | contradiction].
  - destruct (initialized s) eqn:Hi.
    + destruct (requestData_frame s Hi Hmi) as (s' & E & _). eapply Hthen, E.
    + eapply Hthen, requestData_not_initialized, Hi.
  - apply negb_true_iff, N.eqb_neq in Hc.
    pose proof (xEventGroupWaitBits_no_clear (Z.lor DATA_READY_BIT ERROR_BIT) false
                  xTicksToWait s) as H.
    pose proof (waitForData_eq xTicksToWait s) as E.
    destruct (xEventGroupWaitBits _ false false xTicksToWait s) as [bits s'| |];
      [eapply Hthen, E | destruct H; contradiction | contradiction].
  - eexists. apply processData_free, Hm.
  - eapply Hthen, getData_free, Hm.
  - destruct (initialized s) eqn:Hi.
    + eapply Hthen, performAction_initialized; assumption.
    + eapply Hthen, performAction_not_initialized, Hi.
  - destruct s; cbn in *; subst. eexists. reflexivity.
  - destruct s; cbn in *; subst. eexists. reflexivity.
  - apply Z.leb_le in Hc. destruct (Z.le_gt_cases 5 eventType) as [H5 | H5].
    + eapply Hthen, setEventNotification_too_large, H5.
    + destruct (setEventNotification_in_range eventType enable s) as (f & _ & E & _).
      * apply in_bounds_range. lia.
      * eapply Hthen, E.
  - eexists. apply setTestData_free, Hm.
  - eexists. reflexivity.
  - eapply Hthen. reflexivity.
  - destruct s; cbn in *; subst. eexists. reflexivity.
  - eapply Hthen. reflexivity.
  - destruct (tick_returns s) as (s' & E & _). eauto.
  - rewrite dispatch_all_eq. eauto.
Qed.

Lemma calls_return_when_mutexes_free_witness :
  mutexInstance fixture = false /\ mutexInterface fixture = false /\
  returns_promptly (call_waitForData 0%N) = true /\
  exists s', exec (call_waitForData 0%N) fixture = Ret tt s'.
Proof.
  repeat (split; [reflexivity|]).
  apply (calls_return_when_mutexes_free (call_waitForData 0%N) fixture); reflexivity.
Defined.

(** X3. While the instance mutex is held elsewhere, the calls that take
    it ([initialize], [processData], [getData], [registerCallback],
    [unregisterCallbacks], [setTestData], [reset]) do not return, nor
    does [performAction] on an initialized device; on a device that is
    not initialized, [performAction] still returns [NOT_INITIALIZED],
    its check coming before the mutex. *)
Theorem held_instance_mutex_blocks (c : call) (s : MockDeviceInstance) :
  mutexInstance s = true ->
  (takes_mutexInstance c = true -> exec c s = Blocks) /\
  (forall actionId actionParam,
     performAction actionId actionParam s =
       if initialized s then Blocks else Ret NOT_INITIALIZED s).
Proof.
  intros Hm. split.
  - destruct c; cbn; try discriminate; intros _;
      destruct s; cbn in *; subst; reflexivity.
  - intros. destruct s; cbn in *; subst. destruct initialized0; reflexivity.
Qed.

Lemma held_instance_mutex_blocks_witness :
  mutexInstance (set_mutexInstance true cycled) = true /\
  exec (call_getData TEMPERATURE) (set_mutexInstance true cycled) = Blocks /\
  performAction 1 100 (set_mutexInstance true cycled) = Blocks.
Proof.
  split; [reflexivity|].
  destruct (held_instance_mutex_blocks (call_getData TEMPERATURE)
              (set_mutexInstance true cycled) eq_refl) as [H1 H2].
  split; [apply H1; reflexivity | apply (H2 1 100)].
Defined.

(** X4. [requestData] does not take the instance mutex: while it is held
    elsewhere, and [processData] and [getData] wait for it, a
    [requestData] on an initialized device still returns [true] and
    clears [dataProcessed], the flag those two read and write under that
    mutex. *)
Theorem requestData_bypasses_instance_mutex (s : MockDeviceInstance) (T : DeviceDataType) :
  mutexInstance s = true ->
  initialized s = true -> shouldFailNext s = false -> mutexInterface s = false ->
  processData s = Blocks /\ getData T s = Blocks /\
  exists s', requestData s = Ret true s' /\
             dataProcessed s' = false /\ mutexInstance s' = true.
Proof.
  intros Hm Hi Hf Hmi.
  split; [destruct s; cbn in *; subst; reflexivity|].
  split; [destruct s; cbn in *; subst; reflexivity|].
  destruct (requestData_started_effects s Hi Hf Hmi) as (s' & E & _ & Hp & _ & _ & _ & Hm' & _).
  exists s'. split; [exact E|]. split; [exact Hp | congruence].
Qed.

Lemma requestData_bypasses_instance_mutex_witness :
  mutexInstance (set_mutexInstance true cycled) = true /\
  dataProcessed (set_mutexInstance true cycled) = true /\
  exists s', requestData (set_mutexInstance true cycled) = Ret true s' /\
             dataProcessed s' = false.
Proof.
  split; [reflexivity|]. split; [reflexivity|].
  destruct (requestData_bypasses_instance_mutex (set_mutexInstance true cycled) TEMPERATURE
              eq_refl eq_refl eq_refl eq_refl) as (_ & _ & s' & E & Hp & _).
  exists s'. auto.
Defined.

(** ** The action log *)

(** X5. On an initialized device, any sequence of [performAction] calls
    (negative identifiers included) returns, and the log grows by
    exactly the pairs passed, in call order; when the state-changed
    event is enabled, one notification task per call is created, in the
    same order, carrying the action identifier. *)
Theorem performAction_log_in_order (l : list (Z * Z)) (s : MockDeviceInstance) :
  initialized s = true -> mutexInstance s = false ->
  exists s',
    run (map (fun p => call_performAction (fst p) (snd p)) l) s = Ret tt s' /\
    getPerformedActions s' = Ret (performedActions s ++ l) s' /\
    tasks s' = tasks s ++
      (if event_enabled s STATE_CHANGED
       then map (fun p => MockNotify (mkEventNotification STATE_CHANGED SUCCESS (fst p))) l
       else []).
Proof.
  revert s. induction l as [|[a p] l IH]; intros s Hi Hm.
  - exists s. cbn [map]. unfold getPerformedActions, gets.
    destruct (event_enabled s STATE_CHANGED); rewrite !app_nil_r;
      repeat split; reflexivity.
  - pose proof (performAction_initialized a p s Hi Hm) as E.
    cbv zeta in E.
    set (s1 := if event_enabled s STATE_CHANGED
               then set_tasks (tasks s ++ [MockNotify (mkEventNotification STATE_CHANGED SUCCESS a)])
                      (set_performedActions (performedActions s ++ [(a, p)]) s)
               else set_performedActions (performedActions s ++ [(a, p)]) s) in *.
    assert (initialized s1 = true /\ mutexInstance s1 = false /\
            performedActions s1 = performedActions s ++ [(a, p)] /\
            event_enabled s1 STATE_CHANGED = event_enabled s STATE_CHANGED /\
            tasks s1 = tasks s ++
              (if event_enabled s STATE_CHANGED
               then [MockNotify (mkEventNotification STATE_CHANGED SUCCESS a)] else []))
      as (Hi1 & Hm1 & Hp1 & Hen1 & Ht1).
    { subst s1. unfold event_enabled. destruct s; cbn in *.
      split_flags eventsEnabled0. cbn. destruct e3; cbn;
        rewrite ?app_nil_r; repeat split; assumption || reflexivity. }
    destruct (IH s1 Hi1 Hm1) as (s' & E' & Hlog & Htasks).
    exists s'. split; [|split].
    + unfold run in *. cbn [map for_each fst snd exec].
      unfold mbind at 1 2, M_bind at 1 2. rewrite E. exact E'.
    + rewrite Hlog, Hp1, <- app_assoc. reflexivity.
    + rewrite Htasks, Ht1, Hen1, <- app_assoc.
      destruct (event_enabled s STATE_CHANGED); reflexivity.
Qed.

Lemma performAction_log_in_order_witness :
  initialized ready = true /\ mutexInstance ready = false /\
  exists s',
    run [call_performAction 1 100; call_performAction (-2) 200] ready = Ret tt s' /\
    getPerformedActions s' = Ret [(1, 100); (-2, 200)] s'.
Proof.
  split; [reflexivity|]. split; [reflexivity|].
  destruct (performAction_log_in_order [(1, 100); (-2, 200)] ready eq_refl eq_refl)
    as (s' & E & Hlog & _).
  exists s'. auto.
Defined.

(** ** Observers *)

(** X6. [unregisterCallbacks] empties the observer list, and from then
    on a dispatch calls nobody: the notification tasks still waiting,
    those created before the call included, run and end without a single
    observer call. *)
Theorem unregisterCallbacks_silences (s : MockDeviceInstance) :
  mutexInstance s = false ->
  exists s1 d,
    unregisterCallbacks s = Ret SUCCESS s1 /\
    getCallbackCount s1 = Ret 0%nat s1 /\
    dispatch_all s1 = Ret tt d /\
    delivered d = delivered s /\
    tasks d = filter is_MockDataAcq (tasks s).
Proof.
  intros Hm. exists (set_callbacks [] s). eexists.
  split; [destruct s; cbn in *; subst; reflexivity|].
  split; [destruct s; reflexivity|].
  split; [apply dispatch_all_eq|].
  assert (forall ts, deliveries_of [] ts = []) as Hnone
    by (induction ts as [|[r | n] ts IH]; cbn; auto).
  destruct s; cbn [delivered tasks callbacks set_delivered set_tasks set_callbacks].
  rewrite Hnone, app_nil_r. auto.
Qed.

Lemma unregisterCallbacks_silences_witness :
  mutexInstance (state_after (registerCallback 1%nat;; initialize) fixture) = false /\
  exists s1 d,
    unregisterCallbacks (state_after (registerCallback 1%nat;; initialize) fixture)
      = Ret SUCCESS s1 /\
    dispatch_all s1 = Ret tt d /\ delivered d = [] /\ tasks d = [].
Proof.
  assert (mutexInstance (state_after (registerCallback 1%nat;; initialize) fixture) = false)
    as Hm by (vm_compute; reflexivity).
  split; [exact Hm|].
  destruct (unregisterCallbacks_silences
              (state_after (registerCallback 1%nat;; initialize) fixture) Hm)
    as (s1 & d & E1 & _ & E2 & Hd & Ht).
  exists s1, d. split; [exact E1|]. split; [exact E2|].
  rewrite Hd, Ht. split; vm_compute; reflexivity.
Defined.

Lemma registerCallback_free (callback : EventCallback) (s : MockDeviceInstance) :
  mutexInstance s = false ->
  registerCallback callback s = Ret SUCCESS (set_callbacks (callbacks s ++ [callback]) s).
Proof. intros Hm. destruct s; cbn in *; subst. reflexivity. Qed.

(** X7. Observers are looked up when a notification task runs, not when
    the event is raised: an observer registered after an event was
    raised, but before its task is dispatched, is called with that
    notification, after the observers registered earlier.  Registering
    does not check for duplicates: the count always grows by one. *)
Theorem late_observer_receives_pending (s : MockDeviceInstance) (callback : EventCallback)
    (X : EventType) (e : ErrorCode) (customData : Z) :
  mutexInstance s = false -> event_enabled s X = true ->
  exists s1 s2 d,
    notifyEvent X e customData s = Ret tt s1 /\
    registerCallback callback s1 = Ret SUCCESS s2 /\
    getCallbackCount s2 = Ret (S (length (callbacks s))) s2 /\
    dispatch_all s2 = Ret tt d /\
    delivered d = delivered s
      ++ deliveries_of (callbacks s ++ [callback]) (tasks s)
      ++ map (fun cb => (cb, mkEventNotification X e customData)) (callbacks s)
      ++ [(callback, mkEventNotification X e customData)].
Proof.
  intros Hm Hen. unfold event_enabled in Hen.
  destruct (array_get (eventsEnabled s) X) as [[]|] eqn:Hget; try discriminate Hen.
  set (s1 := set_tasks (tasks s ++ [MockNotify (mkEventNotification X e customData)]) s).
  set (s2 := set_callbacks (callbacks s1 ++ [callback]) s1).
  exists s1, s2. eexists.
  split; [rewrite notifyEvent_eq, Hget; reflexivity|].
  split; [apply registerCallback_free; subst s1; destruct s; exact Hm|].
  split; [subst s2 s1; destruct s; unfold getCallbackCount, gets; cbn;
          rewrite length_app, Nat.add_1_r; reflexivity|].
  split; [apply dispatch_all_eq|].
  subst s2 s1. destruct s.
  cbn [delivered tasks callbacks set_delivered set_tasks set_callbacks].
  rewrite deliveries_of_app, deliveries_of_one, map_app. reflexivity.
Qed.

Lemma late_observer_receives_pending_witness :
  mutexInstance fixture = false /\ event_enabled fixture CUSTOM_EVENT = true /\
  exists s1 s2 d,
    notifyEvent CUSTOM_EVENT SUCCESS 7 fixture = Ret tt s1 /\
    registerCallback 1%nat s1 = Ret SUCCESS s2 /\
    dispatch_all s2 = Ret tt d /\
    delivered d = [(1%nat, mkEventNotification CUSTOM_EVENT SUCCESS 7)].
Proof.
  split; [reflexivity|]. split; [reflexivity|].
  destruct (late_observer_receives_pending fixture 1%nat CUSTOM_EVENT SUCCESS 7 eq_refl eq_refl)
    as (s1 & s2 & d & E1 & E2 & _ & E3 & Hd).
  exists s1, s2, d. repeat (split; [assumption|]). rewrite Hd. reflexivity.
Defined.

(** ** The sample table *)

(** X8. [getData] reads the table as it is at the call, not as it was
    at [processData]: on an initialized device whose data is processed,
    [setTestData] is visible to the next [getData] without a new cycle;
    the last of two writes to a type wins, and the other types answer as
    before. *)
Theorem setTestData_last_write_wins (s : MockDeviceInstance) (T T' : DeviceDataType)
    (v1 v2 : list float) :
  mutexInstance s = false -> initialized s = true -> dataProcessed s = true ->
  exists s',
    (setTestData T v1;; setTestData T v2) s = Ret tt s' /\
    getData T s' = Ret (mkDataResult true v2) s' /\
    (T' <> T -> exists r, getData T' s = Ret r s /\ getData T' s' = Ret r s').
Proof.
  intros Hm Hi Hp.
  exists (set_testData (<[T := v2]> (testData s)) s).
  split; [|split].
  - unfold mbind, M_bind. rewrite (setTestData_free T v1 s Hm).
    rewrite setTestData_free by (destruct s; exact Hm).
    destruct s; cbn. rewrite insert_insert_eq. reflexivity.
  - rewrite getData_free by (destruct s; exact Hm).
    destruct s; cbn in *; subst. cbn. rewrite lookup_insert_eq. reflexivity.
  - intros Hne. eexists. split; [apply getData_free, Hm|].
    rewrite getData_free by (destruct s; exact Hm).
    destruct s; cbn in *; subst. cbn. rewrite lookup_insert_ne by congruence. reflexivity.
Qed.

Lemma setTestData_last_write_wins_witness :
  mutexInstance cycled = false /\ initialized cycled = true /\ dataProcessed cycled = true /\
  exists s',
    (setTestData HUMIDITY [65.0%float];; setTestData HUMIDITY [70.5%float]) cycled = Ret tt s' /\
    getData HUMIDITY s' = Ret (mkDataResult true [70.5%float]) s' /\
    getData TEMPERATURE s' = Ret (mkDataResult true samples) s'.
Proof.
  repeat (split; [reflexivity|]).
  destruct (setTestData_last_write_wins cycled HUMIDITY TEMPERATURE [65.0%float] [70.5%float]
              eq_refl eq_refl eq_refl) as (s' & E & Hg & Hother).
  exists s'. split; [exact E|]. split; [exact Hg|].
  destruct Hother as (r & E1 & E2); [discriminate|].
  rewrite E2. vm_compute in E1. injection E1 as <-. reflexivity.
Defined.

(** X9. Whenever [getData] returns, it has not changed the object; its
    result is a success exactly when the device is initialized, the
    data processed and the type present in the table, and then the
    values are the table's entry; every failure carries an empty value
    list. *)
Theorem getData_result (T : DeviceDataType) (r : DataResult) (s s' : MockDeviceInstance) :
  getData T s = Ret r s' ->
  s' = s /\
  (success r = true <->
   initialized s = true /\ dataProcessed s = true /\ is_Some (testData s !! T)) /\
  (success r = true -> testData s !! T = Some (values r)) /\
  (success r = false -> values r = []).
Proof.
  intros E. destruct (mutexInstance s) eqn:Hm.
  { destruct s; cbn in *; subst. discriminate. }
  rewrite (getData_free T s Hm) in E. inversion E; subst s'. split; [reflexivity|].
  destruct (initialized s), (dataProcessed s), (testData s !! T) as [v|]; cbn;
    repeat split; try discriminate; try reflexivity; intuition (try discriminate; eauto).
  all: match goal with H : is_Some None |- _ => destruct H; discriminate end.
Qed.

Lemma getData_result_witness :
  getData PRESSURE cycled = Ret (mkDataResult false []) cycled /\
  testData cycled !! PRESSURE = None.
Proof.
  assert (getData PRESSURE cycled = Ret (mkDataResult false []) cycled) as E
    by (vm_compute; reflexivity).
  split; [exact E|].
  destruct (getData_result PRESSURE _ cycled cycled E) as (_ & Hiff & _ & _).
  destruct (testData cycled !! PRESSURE) eqn:Hl; [|reflexivity].
  assert (success (mkDataResult false []) = true) as H
    by (apply Hiff; repeat split; eauto).
  discriminate H.
Defined.

(** ** [reset] *)

Lemma testbit_ldiff_all_bits (g : EventBits_t) (i : Z) :
  Z.testbit (Z.ldiff g (Z.lor INIT_COMPLETE_BIT (Z.lor DATA_READY_BIT ERROR_BIT))) i
  = Z.testbit g i && negb ((0 <=? i) && (i <? 3)).
Proof.
  rewrite Z.ldiff_spec. f_equal. f_equal.
  change (Z.lor INIT_COMPLETE_BIT (Z.lor DATA_READY_BIT ERROR_BIT)) with (Z.ones 3).
  destruct (Z.leb_spec 0 i); [|apply Z.testbit_neg_r; lia].
  destruct (Z.ltb_spec i 3).
  - apply Z.ones_spec_low. lia.
  - apply Z.ones_spec_high. lia.
Qed.

(** X10. [reset] returns the device to the not-initialized behaviour:
    [requestData] fails, [getData] fails for every type,
    [performAction] returns [NOT_INITIALIZED], the action log is empty,
    the latch is down and the three signal bits are clear.  It is not
    the constructor's state, though: the registered observers, the
    event enable flags and the tasks already created (a pending
    acquisition included) are kept, as are the event bits above the
    three. *)
Theorem reset_effects (s : MockDeviceInstance) :
  mutexInstance s = false ->
  exists s',
    reset s = Ret tt s' /\
    requestData s' = Ret false s' /\
    (forall T, getData T s' = Ret (mkDataResult false []) s') /\
    (forall actionId actionParam, performAction actionId actionParam s' = Ret NOT_INITIALIZED s') /\
    getPerformedActions s' = Ret [] s' /\
    shouldFailNext s' = false /\ nextError s' = SUCCESS /\
    (forall i, Z.testbit (eventGroup s') i
               = Z.testbit (eventGroup s) i && negb ((0 <=? i) && (i <? 3))) /\
    callbacks s' = callbacks s /\ eventsEnabled s' = eventsEnabled s /\
    tasks s' = tasks s /\ delivered s' = delivered s.
Proof.
  intros Hm. eexists. split; [destruct s; cbn in *; subst; reflexivity|].
  destruct s; cbn in *; subst.
  repeat split; try reflexivity. intros i. apply testbit_ldiff_all_bits.
Qed.

Lemma reset_effects_witness :
  mutexInstance armed = false /\
  exists s',
    reset armed = Ret tt s' /\
    getData TEMPERATURE s' = Ret (mkDataResult false []) s' /\
    shouldFailNext s' = false /\ tasks s' = tasks armed.
Proof.
  split; [reflexivity|].
  destruct (reset_effects armed eq_refl)
    as (s' & E & _ & Hg & _ & _ & Hf & _ & _ & _ & _ & Ht & _).
  exists s'. auto.
Defined.

(** ** Waiting for initialization *)

Lemma INIT_COMPLETE_BIT_testbit (bits : EventBits_t) :
  negb (Z.land bits INIT_COMPLETE_BIT =? 0) = Z.testbit bits 0.
Proof. apply (land_pow2_testbit bits 0). lia. Qed.

Lemma wait_satisfied_init (bits : EventBits_t) :
  wait_satisfied bits INIT_COMPLETE_BIT true = Z.testbit bits 0.
Proof.
  unfold wait_satisfied. rewrite <- INIT_COMPLETE_BIT_testbit.
  change INIT_COMPLETE_BIT with (Z.ones 1). rewrite Z.land_ones by lia.
  change (2 ^ 1) with 2. change (Z.ones 1) with 1.
  pose proof (Z.mod_pos_bound bits 2 eq_refl).
  destruct (Z.eqb_spec (bits mod 2) 1), (Z.eqb_spec (bits mod 2) 0); cbn; try reflexivity; lia.
Qed.


Lemma initialize_sets_bit (s : MockDeviceInstance) :
  mutexInstance s = false ->
  exists s', initialize s = Ret tt s' /\ initialized s' = true /\
             Z.testbit (eventGroup s') 0 = true /\ mutexInstance s' = false.
Proof.
  assert (forall g, Z.testbit (Z.lor g INIT_COMPLETE_BIT) 0 = true) as Hbit
    by (intros g; rewrite Z.lor_spec; apply orb_true_r).
  intros H. destruct s; cbn in *; subst. mock_simpl.
  destruct (0 <? initDelay0)%N; cbn.
  - match goal with
    | |- context [vTaskDelay ?n ?st] =>
        destruct (vTaskDelay_returns n st) as (s1 & -> & (g & ts & ->))
    end.
    cbn. split_flags eventsEnabled0. destruct e0; cbn;
      (eexists; split; [reflexivity|]; cbn; auto).
  - split_flags eventsEnabled0. destruct e0; cbn;
      (eexists; split; [reflexivity|]; cbn; auto).
Qed.

(** X11. After [initialize] has returned, [waitForInitialization]
    returns [SUCCESS] at once and without effect, for every timeout,
    [portMAX_DELAY] included; and [isInitialized] answers true. *)
Theorem waitForInitialization_after_initialize (s : MockDeviceInstance) :
  mutexInstance s = false ->
  exists s',
    initialize s = Ret tt s' /\
    isInitialized s' = Ret true s' /\
    forall t : TickType_t, waitForInitialization t s' = Ret SUCCESS s'.
Proof.
  intros Hm. destruct (initialize_sets_bit s Hm) as (s' & E & Hi & Hb & _).
  exists s'. split; [exact E|]. split; [unfold isInitialized, gets; rewrite Hi; reflexivity|].
  intros t. unfold waitForInitialization, mbind, M_bind.
  rewrite xEventGroupWaitBits_satisfied by (rewrite wait_satisfied_init; exact Hb).
  unfold mret, M_ret. rewrite INIT_COMPLETE_BIT_testbit, Hb. reflexivity.
Qed.

Lemma waitForInitialization_after_initialize_witness :
  mutexInstance fixture = false /\
  exists s', initialize fixture = Ret tt s' /\
             waitForInitialization portMAX_DELAY s' = Ret SUCCESS s'.
Proof.
  split; [reflexivity|].
  destruct (waitForInitialization_after_initialize fixture eq_refl) as (s' & E & _ & H).
  exists s'. auto.
Defined.




(** ** Requests in a row *)

(** X16. A data-ready bit left by an earlier cycle outlives a request
    that fails by injection: after [injectError(E)], [requestData]
    returns [false] and starts nothing, yet [waitForData] then returns
    [SUCCESS] at once, for every timeout. *)
Theorem stale_data_ready_after_failed_request (s : MockDeviceInstance) (E : ErrorCode)
    (t : TickType_t) :
  initialized s = true -> Z.testbit (eventGroup s) 1 = true ->
  exists s1 s2,
    injectError E s = Ret tt s1 /\
    requestData s1 = Ret false s2 /\
    tasks s2 = tasks s ++
      (if event_enabled s ERROR_OCCURRED
       then [MockNotify (mkEventNotification ERROR_OCCURRED E 0)] else []) /\
    waitForData t s2 = Ret SUCCESS s2.
Proof.
  intros Hi Hb.
  pose (s1 := set_shouldFailNext true (set_nextError E s)).
  assert (initialized s1 = true /\ shouldFailNext s1 = true) as [Hi1 Hf1]
    by (subst s1; destruct s; cbn in *; auto).
  destruct (requestData s1) as [b s2| |] eqn:E2.
  2, 3: rewrite (requestData_injected s1 Hi1 Hf1) in E2; unfold mbind, M_bind in E2;
        rewrite notifyEvent_eq in E2; subst s1; destruct s; cbn in E2;
        split_flags eventsEnabled0; cbn in E2; destruct e2; discriminate E2.
  assert (b = false) as ->.
  { destruct b; [|reflexivity]. apply requestData_true_inv in E2. intuition congruence. }
  exists s1, s2. split; [reflexivity|]. split; [exact E2|].
  assert (eventGroup s2 = eventGroup s /\
          tasks s2 = tasks s ++
            (if event_enabled s ERROR_OCCURRED
             then [MockNotify (mkEventNotification ERROR_OCCURRED E 0)] else []))
    as [Hg Ht].
  { rewrite (requestData_injected s1 Hi1 Hf1) in E2. unfold mbind, M_bind in E2.
    rewrite notifyEvent_eq in E2. subst s1. unfold event_enabled.
    destruct s; cbn in *. split_flags eventsEnabled0. cbn in *.
    destruct e2; inversion E2; cbn; rewrite ?app_nil_r; auto. }
  split; [exact Ht|].
  rewrite waitForData_eq, xEventGroupWaitBits_satisfied
    by (rewrite wait_satisfied_data_or_error, Hg, Hb; reflexivity).
  unfold wait_result. rewrite Hg, Hb. reflexivity.
Qed.

Lemma stale_data_ready_after_failed_request_witness :
  initialized cycled = true /\ Z.testbit (eventGroup cycled) 1 = true /\
  exists s1 s2,
    injectError COMMUNICATION_ERROR cycled = Ret tt s1 /\
    requestData s1 = Ret false s2 /\
    waitForData 0 s2 = Ret SUCCESS s2.
Proof.
  split; [reflexivity|]. split; [reflexivity|].
  destruct (stale_data_ready_after_failed_request cycled COMMUNICATION_ERROR 0%N
              eq_refl eq_refl) as (s1 & s2 & E1 & E2 & _ & E3).
  exists s1, s2. auto.
Defined.

(** X17. The mock never reports a busy device: right after a successful
    [requestData], a second [requestData] succeeds too, and with a
    non-zero data delay it starts a second acquisition task beside the
    first, which is still pending. *)
Theorem requestData_twice (s : MockDeviceInstance) :
  initialized s = true -> shouldFailNext s = false -> mutexInterface s = false ->
  exists s1 s2,
    requestData s = Ret true s1 /\
    requestData s1 = Ret true s2 /\
    ((0 < dataDelay s)%N ->
     tasks s2 = tasks s ++ [MockDataAcq (dataDelay s); MockDataAcq (dataDelay s)]).
Proof.
  intros Hi Hf Hm.
  pose proof (requestData_started_eq s Hi Hf Hm) as E1. cbv zeta in E1.
  destruct (requestData_started s Hi Hf Hm) as (s1 & E1' & Hstep).
  pose proof (sched_step_frame _ _ Hstep) as (Hi1 & _ & _ & _ & Hm1 & _ & _ & Hf1 & _ & _ & _ & _ & Hd1 & _).
  assert (initialized s1 = true) as Hi1' by (destruct s; cbn in *; congruence).
  assert (shouldFailNext s1 = false) as Hf1' by (destruct s; cbn in *; congruence).
  assert (mutexInterface s1 = false) as Hm1' by (destruct s; cbn in *; congruence).
  assert (dataDelay s1 = dataDelay s) as Hd1' by (destruct s; cbn in *; congruence).
  pose proof (requestData_started_eq s1 Hi1' Hf1' Hm1') as E2. cbv zeta in E2.
  exists s1. eexists. split; [exact E1'|]. split; [exact E2|].
  intros Hd. apply N.ltb_lt in Hd. rewrite Hd1', Hd.
  rewrite E1, Hd in E1'. inversion E1'; subst s1.
  destruct s; cbn. rewrite <- app_assoc. reflexivity.
Qed.

Lemma requestData_twice_witness :
  initialized ready = true /\ shouldFailNext ready = false /\ mutexInterface ready = false /\
  (0 < dataDelay ready)%N /\
  exists s1 s2,
    requestData ready = Ret true s1 /\ requestData s1 = Ret true s2 /\
    tasks s2 = tasks ready ++ [MockDataAcq 20%N; MockDataAcq 20%N].
Proof.
  repeat (split; [reflexivity|]).
  destruct (requestData_twice ready eq_refl eq_refl eq_refl) as (s1 & s2 & E1 & E2 & Ht).
  exists s1, s2. split; [exact E1|]. split; [exact E2|]. apply Ht. reflexivity.
Defined.

(** ** The error latch *)

(** X18. The latch set by [injectError] waits for [requestData]: no
    other call consumes or changes it.  Every call except
    [requestData], [injectError] and [reset] leaves [shouldFailNext]
    and [nextError] as they were. *)
Theorem latch_kept_by_other_calls (c : call) (s s' : MockDeviceInstance) :
  writes_latch c = false -> exec c s = Ret tt s' ->
  shouldFailNext s' = shouldFailNext s /\ nextError s' = nextError s.
Proof.
  intros Hc E.
  assert (forall s0, sched_step s0 s' ->
            shouldFailNext s' = shouldFailNext s0 /\ nextError s' = nextError s0)
    as Hsched by (intros s0 Hstep; apply sched_step_frame in Hstep; intuition congruence).
  destruct c; cbn in Hc; try discriminate Hc; cbn [exec] in E;
    try (apply then_ret_inv in E as [a E]).
  - destruct (mutexInstance s) eqn:Hm.
    + destruct s; cbn in *; subst. discriminate.
    + destruct (initialize_free s Hm) as (s1 & E1 & Hstep). rewrite E1 in E.
      inversion E; subst. destruct (Hsched _ Hstep) as [-> ->]. destruct s; auto.
  - inversion E; subst. auto.
  - apply waitForInitialization_sched_step in E. auto.
  - apply waitForData_forever_sched_step in E. auto.
  - apply waitForData_sched_step in E. auto.
  - destruct (mutexInstance s) eqn:Hm.
    + destruct s; cbn in *; subst. discriminate.
    + rewrite (processData_free s Hm) in E. inversion E; subst. destruct s; auto.
  - destruct (mutexInstance s) eqn:Hm.
    + destruct s; cbn in *; subst. discriminate.
    + rewrite (getData_free _ s Hm) in E. inversion E; subst. auto.
  - revert E. destruct s; cbn. mock_simpl.
    destruct initialized0; cbn; [|intros E; inversion E; auto].
    destruct mutexInstance0; cbn; [discriminate|].
    split_flags eventsEnabled0. destruct e3; cbn; intros E; inversion E; auto.
  - destruct s; cbn in *. destruct mutexInstance0; [discriminate|]. inversion E; auto.
  - destruct s; cbn in *. destruct mutexInstance0; [discriminate|]. inversion E; auto.
  - revert E.
    unfold setEventNotification, mbind, M_bind, gets, modify, mret, M_ret, undefined_behaviour.
    destruct (5 <=? eventType); [intros E; inversion E; auto|].
    destruct (array_set (eventsEnabled s) eventType enable); [|discriminate].
    intros E; inversion E. destruct s; auto.
  - destruct (mutexInstance s) eqn:Hm.
    + destruct s; cbn in *; subst. discriminate.
    + rewrite (setTestData_free _ _ s Hm) in E. inversion E; subst. destruct s; auto.
  - inversion E; subst. auto.
  - inversion E; subst. auto.
  - destruct (tick_returns s) as (s1 & E1 & Hstep). rewrite E1 in E. inversion E; subst. auto.
  - rewrite dispatch_all_eq in E. inversion E; subst. destruct s; auto.
Qed.

Lemma latch_kept_by_other_calls_witness :
  writes_latch (call_performAction 1 100) = false /\
  exec (call_performAction 1 100) armed
    = Ret tt (state_after (exec (call_performAction 1 100)) armed) /\
  shouldFailNext (state_after (exec (call_performAction 1 100)) armed) = true /\
  nextError (state_after (exec (call_performAction 1 100)) armed) = COMMUNICATION_ERROR.
Proof.
  assert (exec (call_performAction 1 100) armed
          = Ret tt (state_after (exec (call_performAction 1 100)) armed)) as E
    by (vm_compute; reflexivity).
  split; [reflexivity|]. split; [exact E|].
  destruct (latch_kept_by_other_calls (call_performAction 1 100) armed _ eq_refl E) as [-> ->].
  split; reflexivity.
Defined.

(** ** The enable flags *)

(** X19. For each of the five event types, [setEventNotification]
    returns [SUCCESS], sets the flag of that type to the value passed,
    and changes nothing else: the flags of the other event types, and
    every other member, are as before. *)
Theorem setEventNotification_frame (X : EventType) (enable : bool) (s : MockDeviceInstance) :
  in_bounds X = true ->
  exists flags,
    setEventNotification X enable s = Ret SUCCESS (set_eventsEnabled flags s) /\
    event_enabled (set_eventsEnabled flags s) X = enable /\
    forall Y, Y <> X ->
      event_enabled (set_eventsEnabled flags s) Y = event_enabled s Y.
Proof.
  intros HX.
  destruct (array_set_in_bounds (eventsEnabled s) X enable HX) as (flags & Hset & Hget & Hframe).
  exists flags. split; [|split].
  - apply in_bounds_range in HX. unfold setEventNotification.
    destruct (Z.leb_spec 5 X); [lia|].
    unfold mbind, M_bind, gets, modify. rewrite Hset. reflexivity.
  - unfold event_enabled. destruct s; cbn. rewrite Hget. destruct enable; reflexivity.
  - intros Y HY. unfold event_enabled. destruct s; cbn in *. rewrite (Hframe Y HY). reflexivity.
Qed.

Lemma setEventNotification_frame_witness :
  in_bounds INITIALIZED = true /\
  exists s',
    setEventNotification INITIALIZED false fixture = Ret SUCCESS s' /\
    event_enabled s' INITIALIZED = false /\ event_enabled s' DATA_READY = true.
Proof.
  split; [reflexivity|].
  destruct (setEventNotification_frame INITIALIZED false fixture eq_refl) as (f & E & H1 & H2).
  eexists. split; [exact E|]. split; [exact H1|].
  rewrite (H2 DATA_READY) by discriminate. reflexivity.
Defined.

(** ** Error codes as text *)

(** X20. [deviceErrorToString] gives the eleven error codes eleven
    different texts, none of them the text of the [default] branch, so
    the code can be read back from the text; every integer outside the
    enumeration, negative or above [UNKNOWN_ERROR], gets the
    invalid-code text, through [errorToString] as well. *)
Theorem deviceErrorToString_distinct :
  (forall e1 e2 : ErrorCode,
     deviceErrorToString (toUnderlyingType e1) = deviceErrorToString (toUnderlyingType e2) ->
     e1 = e2) /\
  (forall e : ErrorCode,
     deviceErrorToString (toUnderlyingType e) <> "Invalid error code"%string) /\
  (forall z : Z, z < 0 \/ 10 < z -> errorToString z = "Invalid error code"%string).
Proof.
  split; [|split].
  - intros e1 e2. destruct e1, e2; cbn; intros H; try reflexivity; discriminate H.
  - intros e. destruct e; cbn; discriminate.
  - intros z Hz. unfold errorToString, deviceErrorToString.
    destruct z as [|p|p]; [lia | | reflexivity].
    repeat (destruct p as [p|p|]; try reflexivity; try lia).
Qed.

(** ** The contract helpers on the mock *)

(** X21. [verifyInitializationContract] run on the mock (instance mutex
    free) runs to its end with every assertion holding exactly when the
    device handed in is not yet initialized; on an initialized device
    its first assertion fails. *)
Theorem verifyInitializationContract_verdict (s : MockDeviceInstance) :
  mutexInstance s = false ->
  exists s', verifyInitializationContract s = Ret (negb (initialized s)) s'.
Proof.
  intros Hm. unfold verifyInitializationContract, isInitialized.
  unfold mbind at 1, M_bind at 1, gets.
  destruct (initialized s) eqn:Hi; [eexists; reflexivity|].
  destruct (initialize_sets_bit s Hm) as (s1 & E1 & Hi1 & _ & Hm1).
  destruct (initialize_sets_bit s1 Hm1) as (s2 & E2 & Hi2 & _ & _).
  exists s2. unfold mbind, M_bind. rewrite E1, Hi1. cbn [negb]. rewrite E2, Hi2. reflexivity.
Qed.

Lemma verifyInitializationContract_verdict_witness :
  mutexInstance fixture = false /\
  exists s', verifyInitializationContract fixture = Ret true s'.
Proof.
  split; [reflexivity|]. exact (verifyInitializationContract_verdict fixture eq_refl).
Defined.



(** ** A new device *)

Lemma sleep_idle (n : nat) (s : MockDeviceInstance) :
  tasks s = [] -> sleep n s = Ret tt s.
Proof.
  intros Ht. induction n as [|n IH]; cbn; [reflexivity|].
  unfold mbind, M_bind. rewrite tick_eq, Ht. cbn.
  replace (set_tasks [] (set_eventGroup (eventGroup s) s)) with s
    by (destruct s; cbn in *; subst; reflexivity).
  exact IH.
Qed.

(** X23. The constructor enables every event: on a device just built,
    whatever the two delays, registering an observer, calling
    [initialize] and letting the notification task run ends with the
    device initialized, the initialization bit set, no task left, and
    the observer called exactly once, with [INITIALIZED] and
    [SUCCESS]. *)
Theorem new_device_first_initialize (initDelayTicks dataDelayTicks : TickType_t)
    (callback : EventCallback) :
  exists s',
    (registerCallback callback;; initialize;; dispatch_all)
      (MockDeviceInstance_new initDelayTicks dataDelayTicks) = Ret tt s' /\
    initialized s' = true /\ Z.testbit (eventGroup s') 0 = true /\
    tasks s' = [] /\
    delivered s' = [(callback, mkEventNotification INITIALIZED SUCCESS 0)] /\
    mutexInstance s' = false /\ mutexInterface s' = false.
Proof.
  unfold mbind at 1, M_bind at 1.
  rewrite registerCallback_free by reflexivity.
  unfold mbind at 1, M_bind at 1.
  unfold initialize, xSemaphoreTake, xSemaphoreGive, vTaskDelay.
  unfold MockDeviceInstance_new. mock_simpl.
  destruct (0 <? initDelayTicks)%N; cbn.
  - rewrite sleep_idle by reflexivity. cbn. rewrite dispatch_all_eq. cbn.
    eexists. repeat split.
  - rewrite dispatch_all_eq. cbn. eexists. repeat split.
Qed.

(** ** The wait without a timeout *)

Lemma xEventGroupWaitBits_forever_satisfied (mask bits : EventBits_t) (xWaitForAllBits : bool)
    (s s' : MockDeviceInstance) :
  xEventGroupWaitBits mask false xWaitForAllBits portMAX_DELAY s = Ret bits s' ->
  wait_satisfied bits mask xWaitForAllBits = true.
Proof.
  unfold xEventGroupWaitBits. cbn [andb]. rewrite N.eqb_refl.
  unfold mbind, M_bind, gets.
  destruct (wait_bits_forever mask xWaitForAllBits (N.to_nat (latest_wake (tasks s))) s)
    as [-> | (s1 & -> & _ & Hsat)]; [discriminate|].
  cbn. intros E. inversion E; subst. exact Hsat.
Qed.

(** X24. [waitForData()], the overload without a timeout, returns only
    on a waited bit and does not consume it: its result is the
    data-ready bit of the event group as it leaves it, [false] meaning
    that the error bit ended the wait; a second call returns the same at
    once.  It never returns while both bits stay clear. *)
Theorem waitForData_forever_outcome (s : MockDeviceInstance) :
  match waitForData_forever s with
  | Ret b s' =>
      b = Z.testbit (eventGroup s') 1 /\
      (b = false -> Z.testbit (eventGroup s') 2 = true) /\
      sched_step s s' /\
      waitForData_forever s' = Ret b s'
  | Blocks =>
      Z.testbit (eventGroup s) 1 = false /\ Z.testbit (eventGroup s) 2 = false
  | Undefined => False
  end.
Proof.
  pose proof (xEventGroupWaitBits_no_clear (Z.lor DATA_READY_BIT ERROR_BIT) false portMAX_DELAY s) as H.
  unfold waitForData_forever, mbind, M_bind in *.
  destruct (xEventGroupWaitBits _ false false portMAX_DELAY s) as [bits s'| |] eqn:E;
    [| |exact H].
  - destruct H as [-> Hstep].
    pose proof (xEventGroupWaitBits_forever_satisfied _ _ _ _ _ E) as Hsat.
    unfold mret, M_ret. rewrite DATA_READY_BIT_testbit.
    rewrite wait_satisfied_data_or_error in Hsat.
    split; [reflexivity|]. split; [|split; [exact Hstep|]].
    + intros Hb. rewrite Hb in Hsat. exact Hsat.
    + rewrite xEventGroupWaitBits_satisfied
        by (rewrite wait_satisfied_data_or_error; exact Hsat).
      rewrite DATA_READY_BIT_testbit. reflexivity.
  - destruct H as [_ Hun]. rewrite wait_satisfied_data_or_error in Hun.
    apply orb_false_iff in Hun. exact Hun.
Qed.

(** ** Bits that waits and requests leave alone *)

Lemma wait_bits_other_bits (n : nat) (mask : EventBits_t) (xWaitForAllBits : bool)
    (expired : EventBits_t -> M EventBits_t) (bits : EventBits_t) (s s' : MockDeviceInstance) :
  (forall b s0 r s1, expired b s0 = Ret r s1 -> s1 = s0) ->
  wait_bits n mask xWaitForAllBits expired s = Ret bits s' ->
  forall i, i <> 1 -> Z.testbit (eventGroup s') i = Z.testbit (eventGroup s) i.
Proof.
  intros Hexp. revert s. induction n as [|n IH]; intros s; cbn [wait_bits];
    unfold mbind at 1, M_bind at 1, gets;
    destruct (wait_satisfied (eventGroup s) mask xWaitForAllBits).
  1, 3: intros E i _; inversion E; reflexivity.
  - intros E i _. apply Hexp in E. subst. reflexivity.
  - unfold mbind, M_bind. destruct (tick_returns s) as (s1 & E1 & _). rewrite E1.
    intros E i Hi. rewrite (IH s1 E i Hi), (tick_bits s s1 i E1).
    destruct (Z.eqb_spec i 1); [contradiction|]. cbn [andb]. apply orb_false_r.
Qed.

Lemma waitForData_other_bits (t : TickType_t) (r : ErrorCode) (s s' : MockDeviceInstance) :
  waitForData t s = Ret r s' ->
  forall i, i <> 1 -> Z.testbit (eventGroup s') i = Z.testbit (eventGroup s) i.
Proof.
  rewrite waitForData_eq. unfold xEventGroupWaitBits. cbn [andb].
  unfold mbind at 1 2, M_bind at 1 2.
  destruct (t =? portMAX_DELAY)%N.
  - unfold mbind, M_bind, gets.
    destruct (wait_bits _ _ false (fun _ => block_forever) s) as [bits s1| |] eqn:E;
      try discriminate.
    cbn. intros E'. inversion E'; subst.
    eapply wait_bits_other_bits; [|exact E]. intros b s0 r0 s2 H. discriminate H.
  - destruct (wait_bits _ _ false mret s) as [bits s1| |] eqn:E; try discriminate.
    cbn. intros E'. inversion E'; subst.
    eapply wait_bits_other_bits; [|exact E]. intros b s0 r0 s2 H. inversion H. reflexivity.
Qed.

(** X25. [verifyErrorHandling] run on the mock with both mutexes free,
    a bounded wait and the error bit clear passes, on a device that is
    initialized or not and whether or not an error is armed: with the
    error bit clear [waitForData] can only answer [SUCCESS] or
    [TIMEOUT], and [performAction(-1, -1)] answers a declared error
    code. *)
Theorem verifyErrorHandling_passes (ticks1 : TickType_t) (s : MockDeviceInstance) :
  mutexInstance s = false -> mutexInterface s = false ->
  Z.testbit (eventGroup s) 2 = false -> ticks1 <> portMAX_DELAY ->
  exists s', verifyErrorHandling ticks1 s = Ret true s'.
Proof.
  intros Hm Hmi He Ht. unfold verifyErrorHandling, isInitialized.
  unfold mbind at 1, M_bind at 1, gets.
  destruct (initialized s) eqn:Hi.
  - destruct (requestData_frame s Hi Hmi) as (s1 & E1 & Hi1 & Hm1 & _).
    assert (Z.testbit (eventGroup s1) 2 = false) as He1.
    { destruct (shouldFailNext s) eqn:Hf; cbn [negb] in E1.
      - destruct (requestData_failed_state s s1 E1) as [-> | [-> | ->]];
          destruct s; exact He.
      - destruct (requestData_started_effects s Hi Hf Hmi) as (s1' & E1' & _ & _ & _ & Hb & _).
        rewrite E1 in E1'. inversion E1'; subst s1'. rewrite Hb by lia. exact He. }
    pose proof (xEventGroupWaitBits_no_clear (Z.lor DATA_READY_BIT ERROR_BIT) false ticks1 s1) as Hw.
    pose proof (waitForData_eq ticks1 s1) as E2.
    destruct (xEventGroupWaitBits _ false false ticks1 s1) as [bits s2| |];
      [| destruct Hw; contradiction | contradiction].
    destruct Hw as [-> Hstep].
    pose proof (waitForData_other_bits _ _ _ _ E2 2 ltac:(lia)) as He2. rewrite He1 in He2.
    pose proof (sched_step_frame _ _ Hstep) as (Hi2 & _ & _ & Hm2 & _).
    assert (initialized s2 = true) as Hi2' by congruence.
    assert (mutexInstance s2 = false) as Hm2' by congruence.
    unfold mbind, M_bind, mret, M_ret. rewrite E1. cbv beta iota. rewrite E2.
    cbv beta iota. unfold wait_result. rewrite He2.
    destruct (Z.testbit (eventGroup s2) 1);
      [rewrite (bool_decide_eq_true_2 (SUCCESS = SUCCESS)) by reflexivity
      |rewrite (bool_decide_eq_true_2 (TIMEOUT = TIMEOUT)), orb_true_r by reflexivity];
      cbn [orb negb]; cbv beta;
      rewrite (performAction_initialized _ _ s2 Hi2' Hm2'); eexists; reflexivity.
  - unfold mbind, M_bind, mret, M_ret. cbn [negb].
    rewrite (performAction_not_initialized _ _ s Hi). eexists. reflexivity.
Qed.

Lemma verifyErrorHandling_passes_witness :
  mutexInstance armed = false /\ mutexInterface armed = false /\
  Z.testbit (eventGroup armed) 2 = false /\ 1%N <> portMAX_DELAY /\
  exists s', verifyErrorHandling 1%N armed = Ret true s'.
Proof.
  assert (1%N <> portMAX_DELAY) as Ht by discriminate.
  repeat (split; [reflexivity || exact Ht|]).
  exact (verifyErrorHandling_passes 1%N armed eq_refl eq_refl eq_refl Ht).
Defined.
